(** * Heatmap telemetry: throttled sampling, death capture and autosave

    A shallow embedding of the server-side Enforce Script classes of the
    Heatmap mod

      - [eAIBase]        (4_world/entities/manbase/eAIBase.c)
      - [ZombieBase]     (4_world/entities/manbase/ZombieBase.c)
      - [MissionServer]  (5_mission/mission/missionserver.c)

    together with the properties of the throttle, of the death hook and of
    the autosave protocol.

    Conventions of the embedding.
      - An Enforce Script [float] is an IEEE-754 binary32 number; it is
        modelled by [spec_float] at precision 24 and maximal exponent 128,
        so additions round exactly as the engine's do.
      - An Enforce Script [int] is a 32-bit signed integer, modelled in [Z];
        the only integer operations of the code are [/ 1000] and [% 60],
        which truncate towards zero and cannot overflow.
      - [array<vector>] objects live in a heap and are named by their
        address, because the same array is held by the agent and by the
        session aggregate.
      - What the engine answers during one callback (clock, position,
        liveness, ...) is an input of the callback.
      - Calls to [super] are outside the modelled state and are omitted. *)

From Stdlib Require Import ZArith List Bool String DecimalString SpecFloat Lia.
From Stdlib Require Import Sorted.
From stdpp Require Import base list strings.
Import ListNotations.

(** ** Numbers and strings of the script language *)

Definition float : Type := spec_float.

Module Float.
Definition prec : Z := 24.
Definition emax : Z := 128.

(** [a + b] on floats, rounded to nearest even. *)
Definition add (a b : float) : float := SFadd prec emax a b.

(** [a >= b] on floats; false as soon as one side is not a number. *)
Definition ge (a b : float) : bool := SFleb b a.

(** Conversion of an [int] to [float]. *)
Definition of_int (n : Z) : float := binary_normalize prec emax n 0 false.

(** [float.MAX], the largest finite float. *)
Definition MAX : float := SFmax_float prec emax.

(** The literal [0.0]. *)
Definition zero : float := S754_zero false.
End Float.

Module Int.
(** [a / b] on ints truncates towards zero. *)
Definition div (a b : Z) : Z := Z.quot a b.

(** [a % b] on ints has the sign of [a]. *)
Definition mod_ (a b : Z) : Z := Z.rem a b.

(** Conversion of an [int] to [string] when it is concatenated: plain
    decimal digits, a leading minus sign for negative values. *)
Definition to_string (n : Z) : string := NilZero.string_of_int (Z.to_int n).
End Int.

(** A [vector] has three float components, indexed 0, 1, 2. *)
Record vector : Type := Vector { vec0 : float; vec1 : float; vec2 : float }.

(** [v[1] = f] *)
Definition vector_set1 (v : vector) (f : float) : vector :=
  {| vec0 := vec0 v; vec1 := f; vec2 := vec2 v |}.

(** ** The session aggregate and the heap of waypoint arrays *)

(** Address of an [array<vector>] object: its index in the heap. *)
Abbreviation ref := nat (only parsing).

Module HeatmapData.
(** Modelled from the spec: the class [HeatmapData] is declared outside the
    files at hand; its fields are the three collections of the session
    aggregate, under the names the callers use.  [m_AIWayPoints] holds
    references to the agents' own arrays (registered, not copied). *)
Record t : Type := Build {
  m_ZombiePoints : list vector;
  m_AIWayPoints : list ref;
  m_AIDeathPoints : list vector
}.

Definition empty : t :=
  {| m_ZombiePoints := []; m_AIWayPoints := []; m_AIDeathPoints := [] |}.
End HeatmapData.

(** The part of the process state the mod reads and writes: the heap of
    trajectory arrays and the singleton [HeatmapData.CURRENT_HEATMAP]. *)
Record World : Type := MkWorld {
  heap : list (list vector);
  CURRENT_HEATMAP : HeatmapData.t
}.

Definition empty_world : World :=
  {| heap := []; CURRENT_HEATMAP := HeatmapData.empty |}.

(** [new array<vector>]: a fresh empty array at the next free address. *)
Definition heap_new (h : list (list vector)) : ref * list (list vector) :=
  (length h, h ++ [[]]).

(** [arr.Insert(v)] on the array at address [a]: appends [v] at its end. *)
Definition heap_Insert (a : ref) (v : vector) (h : list (list vector))
  : list (list vector) :=
  alter (fun arr => arr ++ [v]) a h.

(** The current content of the array at address [a]. *)
Definition trajectory (w : World) (a : ref) : list vector :=
  default [] (heap w !! a).

(** ** Answers of the engine *)

(** [GetGame()] *)
Record Game : Type := MkGame {
  IsDedicatedServer : bool;
  GetTime : Z;                       (* milliseconds since start, an int *)
  GetDate : Z * Z * Z * Z * Z        (* year, month, day, hour, minute *)
}.

(** The entity's own engine-side state. *)
Record Entity : Type := MkEntity {
  IsPlayerSelected : bool;
  IsAlive : bool;
  IsInVehicle : bool;
  GetPosition : vector
}.

(** The file system calls of [OnInit], with the value each returns. *)
Record FileSystem : Type := MkFileSystem {
  FileExist : string -> bool;
  MakeDirectory : string -> bool
}.

(** [g_Game]: the two sampling periods are constants of the game object,
    declared outside the files at hand. *)
Record DayZGame : Type := MkDayZGame {
  HEATMAP_TICK_TIME : float;
  HEATMAP_TICK_TIME_VEHICLE : float
}.

(** What a callback does to the outside, in program order. *)
Inductive effect : Type :=
| EffMakeDirectory (path : string)
| EffPrint (msg : string)
| EffJsonSaveFile (path : string) (data : World).

(** ** eAIBase *)

Module eAIBase.
Record t : Type := Build {
  m_HeatmapTime : float;
  m_AIWayPoints : option ref        (* [None] is the null reference *)
}.

(** Field initialisers. *)
Definition new : t :=
  {| m_HeatmapTime := Float.MAX; m_AIWayPoints := None |}.

Definition GetWaypoint (g : Game) (e : Entity) : vector :=
  let waypoint := GetPosition e in
  vector_set1 waypoint (Float.of_int (Int.div (GetTime g) 1000)).

Definition OnSelectPlayer (g : Game) (st : t * World) : t * World :=
  let '(self, w) := st in
  if IsDedicatedServer g then
    let '(a, h) := heap_new (heap w) in
    let hm := CURRENT_HEATMAP w in
    ({| m_HeatmapTime := m_HeatmapTime self; m_AIWayPoints := Some a |},
     {| heap := h;
        CURRENT_HEATMAP :=
          {| HeatmapData.m_ZombiePoints := HeatmapData.m_ZombiePoints hm;
             HeatmapData.m_AIWayPoints := HeatmapData.m_AIWayPoints hm ++ [a];
             HeatmapData.m_AIDeathPoints := HeatmapData.m_AIDeathPoints hm |} |})
  else st.

Definition OnScheduledTick (g_Game : DayZGame) (deltaTime : float)
    (g : Game) (e : Entity) (st : t * World) : t * World :=
  let '(self, w) := st in
  match m_AIWayPoints self with
  | None => st
  | Some a =>
    if negb (IsPlayerSelected e) || negb (IsAlive e) then st
    else
      let time := Float.add (m_HeatmapTime self) deltaTime in
      if (Float.ge time (HEATMAP_TICK_TIME_VEHICLE g_Game) && IsInVehicle e)
         || Float.ge time (HEATMAP_TICK_TIME g_Game)
      then
        ({| m_HeatmapTime := Float.zero; m_AIWayPoints := Some a |},
         {| heap := heap_Insert a (GetWaypoint g e) (heap w);
            CURRENT_HEATMAP := CURRENT_HEATMAP w |})
      else
        ({| m_HeatmapTime := time; m_AIWayPoints := Some a |}, w)
  end.

Definition EEKilled (g : Game) (e : Entity) (st : t * World) : t * World :=
  let '(self, w) := st in
  match m_AIWayPoints self with
  | None => st
  | Some a =>
    let hm := CURRENT_HEATMAP w in
    (self,
     {| heap := heap_Insert a (GetWaypoint g e) (heap w);
        CURRENT_HEATMAP :=
          {| HeatmapData.m_ZombiePoints := HeatmapData.m_ZombiePoints hm;
             HeatmapData.m_AIWayPoints := HeatmapData.m_AIWayPoints hm;
             HeatmapData.m_AIDeathPoints :=
               HeatmapData.m_AIDeathPoints hm ++ [GetWaypoint g e] |} |})
  end.
End eAIBase.

(** ** MissionServer *)

Module MissionServer.
Definition HEATMAP_PROFILE_FOLDER : string := "$profile:Heatmap".
Definition AUTOSAVE_INTERVAL : float := Float.of_int 120.

Record t : Type := Build {
  m_AutosaveTimer : float;
  m_SessionFileName : string
}.

(** Field initialisers. *)
Definition new : t :=
  {| m_AutosaveTimer := Float.of_int 0; m_SessionFileName := "" |}.

Definition SaveHeatmapData (self : t) (w : World) : list effect :=
  if negb (String.eqb (m_SessionFileName self) "")
  then [EffJsonSaveFile (m_SessionFileName self) w]
  else [].

Section WithFloatToString.
(** How the engine prints a float inside a concatenation. *)
Variable float_to_string : float -> string.

Definition OnInit (fs : FileSystem) (g : Game) (self : t) : t * list effect :=
  let mk :=
    if negb (FileExist fs HEATMAP_PROFILE_FOLDER)
    then
      (* the value MakeDirectory returns is dropped *)
      let _ := MakeDirectory fs HEATMAP_PROFILE_FOLDER in
      [EffMakeDirectory HEATMAP_PROFILE_FOLDER]
    else [] in
  let '(year, month, day, hour, minute) := GetDate g in
  let second := Int.mod_ (GetTime g) 60 in
  let name :=
    HEATMAP_PROFILE_FOLDER +:+ "/session_" +:+ Int.to_string year +:+ "-"
    +:+ Int.to_string month +:+ "-" +:+ Int.to_string day +:+ "_"
    +:+ Int.to_string hour +:+ "-" +:+ Int.to_string minute +:+ "-"
    +:+ Int.to_string second +:+ "_Heatmap.json" in
  ({| m_AutosaveTimer := m_AutosaveTimer self; m_SessionFileName := name |},
   mk ++
   [EffPrint ("[Heatmap] Initialized - Session file: " +:+ name);
    EffPrint ("[Heatmap] Autosaving every "
              +:+ float_to_string AUTOSAVE_INTERVAL +:+ " seconds")]).
End WithFloatToString.

Definition OnUpdate (timeslice : float) (self : t) (w : World)
  : t * list effect :=
  let timer := Float.add (m_AutosaveTimer self) timeslice in
  if Float.ge timer AUTOSAVE_INTERVAL then
    let self' :=
      {| m_AutosaveTimer := Float.of_int 0;
         m_SessionFileName := m_SessionFileName self |} in
    (self',
     SaveHeatmapData self' w ++ [EffPrint "[Heatmap] Auto-saved heatmap data"])
  else
    ({| m_AutosaveTimer := timer;
        m_SessionFileName := m_SessionFileName self |}, []).

Definition OnMissionFinish (self : t) (w : World) : t * list effect :=
  (self,
   [EffPrint "[Heatmap] Saving heatmap data..."]
   ++ SaveHeatmapData self w
   ++ [EffPrint ("[Heatmap] Data saved successfully to: "
                 +:+ m_SessionFileName self)]).
End MissionServer.

(** ** ZombieBase *)

Module ZombieBase.
Record t : Type := Build {
  m_HeatmapTime : float;
  m_WayPoints : ref
}.

(** Field initialisers: the zombie's own array is allocated with the object;
    it is never registered in the session aggregate. *)
Definition new (w : World) : t * World :=
  let '(a, h) := heap_new (heap w) in
  ({| m_HeatmapTime := Float.MAX; m_WayPoints := a |},
   {| heap := h; CURRENT_HEATMAP := CURRENT_HEATMAP w |}).

Definition GetWaypoint (g : Game) (e : Entity) : vector :=
  let waypoint := GetPosition e in
  vector_set1 waypoint (Float.of_int (Int.div (GetTime g) 1000)).

Section WithVectorToString.
(** How the engine prints a vector inside a concatenation. *)
Variable vector_to_string : vector -> string.

Definition EEKilled (g : Game) (e : Entity) (st : t * World)
  : (t * World) * list effect :=
  let '(self, w) := st in
  let hm := CURRENT_HEATMAP w in
  ((self,
    {| heap := heap_Insert (m_WayPoints self) (GetWaypoint g e) (heap w);
       CURRENT_HEATMAP :=
         {| HeatmapData.m_ZombiePoints :=
              HeatmapData.m_ZombiePoints hm ++ [GetWaypoint g e];
            HeatmapData.m_AIWayPoints := HeatmapData.m_AIWayPoints hm;
            HeatmapData.m_AIDeathPoints := HeatmapData.m_AIDeathPoints hm |} |}),
   [EffPrint ("ZombieBase::EEKilled" +:+ vector_to_string (GetWaypoint g e))]).
End WithVectorToString.
End ZombieBase.

(** ** Executions *)

(** One call of [OnScheduledTick] on an agent, with what the engine answers
    during that call. *)
Record Tick : Type := MkTick {
  deltaTime : float;
  game : Game;
  entity : Entity
}.

(** The agent and the world it writes to. *)
Definition agent_state : Type := eAIBase.t * World.

Definition tick (g_Game : DayZGame) (st : agent_state) (tk : Tick) : agent_state :=
  eAIBase.OnScheduledTick g_Game (deltaTime tk) (game tk) (entity tk) st.

Definition ticks (g_Game : DayZGame) (st : agent_state) (tks : list Tick)
  : agent_state :=
  fold_left (tick g_Game) tks st.

(** The life of an agent: calls of its three hooks, in any order. *)
Inductive agent_event : Type :=
| EvSelectPlayer (g : Game)
| EvScheduledTick (tk : Tick)
| EvKilled (g : Game) (e : Entity).

Definition agent_step (g_Game : DayZGame) (st : agent_state) (ev : agent_event)
  : agent_state :=
  match ev with
  | EvSelectPlayer g => eAIBase.OnSelectPlayer g st
  | EvScheduledTick tk => tick g_Game st tk
  | EvKilled g e => eAIBase.EEKilled g e st
  end.

Definition agent_run (g_Game : DayZGame) (st : agent_state)
    (evs : list agent_event) : agent_state :=
  fold_left (agent_step g_Game) evs st.

(** The life of the mission: each call comes with the world as it is then. *)
Inductive mission_event : Type :=
| EvUpdate (timeslice : float) (w : World)
| EvMissionFinish (w : World).

Definition mission_step (self : MissionServer.t) (ev : mission_event)
  : MissionServer.t * list effect :=
  match ev with
  | EvUpdate timeslice w => MissionServer.OnUpdate timeslice self w
  | EvMissionFinish w => MissionServer.OnMissionFinish self w
  end.

(** Runs the events in order and collects the effects in program order. *)
Fixpoint mission_run (self : MissionServer.t) (evs : list mission_event)
  : MissionServer.t * list effect :=
  match evs with
  | [] => (self, [])
  | ev :: evs' =>
    let '(self1, out1) := mission_step self ev in
    let '(self2, out2) := mission_run self1 evs' in
    (self2, out1 ++ out2)
  end.

(** ** Observations *)

(** The tick is past the guard of [OnScheduledTick]. *)
Definition eligible (tk : Tick) : bool :=
  IsPlayerSelected (entity tk) && IsAlive (entity tk).

(** The agent holds a trajectory that exists in the heap. *)
Definition tracked (st : agent_state) (a : ref) : Prop :=
  eAIBase.m_AIWayPoints (fst st) = Some a /\ a < length (heap (snd st)).

(** A waypoint was appended to the agent's trajectory between [st] and [st']. *)
Definition fired (st st' : agent_state) : bool :=
  match eAIBase.m_AIWayPoints (fst st) with
  | Some a => length (trajectory (snd st) a) <? length (trajectory (snd st') a)
  | None => false
  end.

(** The tick [tk], taken after the ticks [pre], appends a waypoint. *)
Definition fired_at (g_Game : DayZGame) (st : agent_state) (pre : list Tick)
    (tk : Tick) : bool :=
  fired (ticks g_Game st pre) (tick g_Game (ticks g_Game st pre) tk).

(** No tick of [seg] appends a waypoint. *)
Definition quiet (g_Game : DayZGame) (st : agent_state) (seg : list Tick) : Prop :=
  forall p u q, seg = p ++ u :: q -> fired_at g_Game st p u = false.

(** Sum of the [deltaTime]s of [tks] on top of [base], added in tick order. *)
Definition accumulate (base : float) (tks : list Tick) : float :=
  fold_left (fun acc tk => Float.add acc (deltaTime tk)) tks base.

(** The threshold check of the code: the vehicle period while in a vehicle,
    or the normal period in any state. *)
Definition reached (g_Game : DayZGame) (time : float) (inVehicle : bool) : bool :=
  (Float.ge time (HEATMAP_TICK_TIME_VEHICLE g_Game) && inVehicle)
  || Float.ge time (HEATMAP_TICK_TIME g_Game).

(** The threshold that applies to a tick: the vehicle period in a vehicle,
    the normal period otherwise. *)
Definition applicable_threshold (g_Game : DayZGame) (tk : Tick) : float :=
  if IsInVehicle (entity tk) then HEATMAP_TICK_TIME_VEHICLE g_Game
  else HEATMAP_TICK_TIME g_Game.

(** The sum that starts at [base] reaches the applicable threshold at [tk],
    after the ticks [seg], and at no tick of [seg] before. *)
Definition first_reaches (g_Game : DayZGame) (base : float) (seg : list Tick)
    (tk : Tick) : Prop :=
  Float.ge (accumulate base (seg ++ [tk])) (applicable_threshold g_Game tk) = true
  /\ forall p u q, seg = p ++ u :: q ->
       Float.ge (accumulate base (p ++ [u])) (applicable_threshold g_Game u) = false.

(** [before] is empty and the sum starts at [start], or [before] ends with a
    tick that fired and the sum starts at zero. *)
Definition segment_base (g_Game : DayZGame) (st : agent_state) (start : float)
    (before : list Tick) (base : float) : Prop :=
  (before = [] /\ base = start)
  \/ (exists b f, before = b ++ [f] /\ fired_at g_Game st b f = true
                  /\ base = Float.zero).

(** The throttle law over a tick sequence: a tick fires iff the sum of the
    [deltaTime]s since the last fire, or since the start with initial value
    [start], first reaches the applicable threshold at that tick; a tick
    that fires leaves the accumulator at zero. *)
Definition throttle_law (g_Game : DayZGame) (st : agent_state) (start : float)
    (tks : list Tick) : Prop :=
  forall before seg tk after base,
    tks = before ++ seg ++ tk :: after ->
    segment_base g_Game st start before base ->
    quiet g_Game (ticks g_Game st before) seg ->
    (fired_at g_Game (ticks g_Game st before) seg tk = true
       <-> first_reaches g_Game base seg tk)
    /\ (fired_at g_Game (ticks g_Game st before) seg tk = true ->
        eAIBase.m_HeatmapTime
          (fst (ticks g_Game st (before ++ seg ++ [tk]))) = Float.zero).

(** The file writes among the effects. *)
Definition is_write (x : effect) : bool :=
  match x with EffJsonSaveFile _ _ => true | _ => false end.

Definition writes (out : list effect) : list effect := filter is_write out.

(** [quiet], computed. *)
Fixpoint quietb (g_Game : DayZGame) (st : agent_state) (seg : list Tick) : bool :=
  match seg with
  | [] => true
  | u :: seg' =>
    negb (fired st (tick g_Game st u)) && quietb g_Game (tick g_Game st u) seg'
  end.

(** What can still happen to an agent once it was killed: the engine answers
    [IsAlive() = false] from then on, the agent may be selected again, and it
    is not killed a second time. *)
Definition post_mortem (ev : agent_event) : Prop :=
  match ev with
  | EvSelectPlayer _ => True
  | EvScheduledTick tk => IsAlive (entity tk) = false
  | EvKilled _ _ => False
  end.

(** Calls of [OnUpdate], one per timeslice, each with the world of its time. *)
Definition updates (l : list (float * World)) : list mission_event :=
  map (fun x => EvUpdate (fst x) (snd x)) l.

(** Sum of the timeslices of [l] on top of [base], added in call order. *)
Definition autosave_sum (base : float) (l : list (float * World)) : float :=
  fold_left (fun acc x => Float.add acc (fst x)) l base.

(** The engine at a session start: the calendar gives year, month, day, hour
    and minute to [GetDate]; its second is not part of what [GetDate] returns;
    [GetTime] is the elapsed simulation time in milliseconds. *)
Definition game_at (calendar : Z * Z * Z * Z * Z * Z) (elapsed_ms : Z) : Game :=
  let '(year, month, day, hour, minute, _) := calendar in
  {| IsDedicatedServer := true;
     GetTime := elapsed_ms;
     GetDate := (year, month, day, hour, minute) |}.

(** The session file name a fresh mission gets from [OnInit]. *)
Definition session_path (float_to_string : float -> string) (fs : FileSystem)
    (g : Game) : string :=
  MissionServer.m_SessionFileName
    (fst (MissionServer.OnInit float_to_string fs g MissionServer.new)).

(** After [OnMissionFinish], every tick is a no-op. *)
Definition finalized_is_noop (self : MissionServer.t) (w : World) : Prop :=
  let self' := fst (MissionServer.OnMissionFinish self w) in
  forall timeslice w', MissionServer.OnUpdate timeslice self' w' = (self', []).

(** No run of the mission from [self] attempts a file write. *)
Definition persistence_disabled (self : MissionServer.t) : Prop :=
  forall evs, writes (snd (mission_run self evs)) = [].

(** No prefix of [l] brings the sum that starts at [base] to the autosave
    interval; computed. *)
Fixpoint never_due (base : float) (l : list (float * World)) : bool :=
  match l with
  | [] => true
  | x :: l' =>
    negb (Float.ge (Float.add base (fst x)) MissionServer.AUTOSAVE_INTERVAL)
    && never_due (Float.add base (fst x)) l'
  end.

(** The whole session: hooks of the agent and of the mission interleaved on
    one world; the mission saves the world as the agent left it. *)
Inductive session_event : Type :=
| ForAgent (ev : agent_event)
| ForMission_OnUpdate (timeslice : float)
| ForMission_OnMissionFinish.

Definition session_state : Type := MissionServer.t * agent_state.

Definition session_step (g_Game : DayZGame) (s : session_state)
    (ev : session_event) : session_state * list effect :=
  let '(mission, st) := s in
  match ev with
  | ForAgent ev' => ((mission, agent_step g_Game st ev'), [])
  | ForMission_OnUpdate timeslice =>
    let '(mission', out) := MissionServer.OnUpdate timeslice mission (snd st) in
    ((mission', st), out)
  | ForMission_OnMissionFinish =>
    let '(mission', out) := MissionServer.OnMissionFinish mission (snd st) in
    ((mission', st), out)
  end.

Fixpoint session_run (g_Game : DayZGame) (s : session_state)
    (evs : list session_event) : session_state * list effect :=
  match evs with
  | [] => (s, [])
  | ev :: evs' =>
    let '(s1, out1) := session_step g_Game s ev in
    let '(s2, out2) := session_run g_Game s1 evs' in
    (s2, out1 ++ out2)
  end.

(** The agent's share of a session. *)
Fixpoint agent_events (evs : list session_event) : list agent_event :=
  match evs with
  | [] => []
  | ForAgent ev :: evs' => ev :: agent_events evs'
  | _ :: evs' => agent_events evs'
  end.

(** ** Further observations *)

(** The deaths of zombies, one call of [EEKilled] per zombie, in order. *)
Definition zombie_death (vector_to_string : vector -> string) (w : World)
    (k : ZombieBase.t * Game * Entity) : World :=
  let '(z, g, e) := k in
  snd (fst (ZombieBase.EEKilled vector_to_string g e (z, w))).

Definition zombie_deaths (vector_to_string : vector -> string) (w : World)
    (kills : list (ZombieBase.t * Game * Entity)) : World :=
  fold_left (zombie_death vector_to_string) kills w.

(** The trajectories the aggregate will serialize. *)
Definition registered (w : World) : list ref :=
  HeatmapData.m_AIWayPoints (CURRENT_HEATMAP w).

(** Every registered trajectory exists, and none is registered twice. *)
Definition world_wf (w : World) : Prop :=
  Forall (fun a => a < length (heap w)) (registered w)
  /\ NoDup (registered w).

(** The world is well formed and the agent's trajectory, when it has one, is
    among the registered ones. *)
Definition agent_inv (st : agent_state) : Prop :=
  world_wf (snd st)
  /\ forall a, eAIBase.m_AIWayPoints (fst st) = Some a -> a ∈ registered (snd st).

(** [w'] holds everything [w] holds, in the same places: every array and
    every collection of [w] is a prefix of its counterpart in [w']. *)
Definition world_le (w w' : World) : Prop :=
  (forall a tr, heap w !! a = Some tr ->
     exists tr', heap w' !! a = Some tr' /\ tr `prefix_of` tr')
  /\ HeatmapData.m_AIWayPoints (CURRENT_HEATMAP w)
       `prefix_of` HeatmapData.m_AIWayPoints (CURRENT_HEATMAP w')
  /\ HeatmapData.m_AIDeathPoints (CURRENT_HEATMAP w)
       `prefix_of` HeatmapData.m_AIDeathPoints (CURRENT_HEATMAP w')
  /\ HeatmapData.m_ZombiePoints (CURRENT_HEATMAP w)
       `prefix_of` HeatmapData.m_ZombiePoints (CURRENT_HEATMAP w').

(** The waypoints of the ticks of [tks] that append one, in tick order. *)
Fixpoint captured (g_Game : DayZGame) (st : agent_state) (tks : list Tick)
  : list vector :=
  match tks with
  | [] => []
  | tk :: tks' =>
    (if fired st (tick g_Game st tk)
     then [eAIBase.GetWaypoint (game tk) (entity tk)] else [])
    ++ captured g_Game (tick g_Game st tk) tks'
  end.

Definition is_kill (ev : agent_event) : bool :=
  match ev with EvKilled _ _ => true | _ => false end.

Definition is_dedicated_select (ev : agent_event) : bool :=
  match ev with EvSelectPlayer g => IsDedicatedServer g | _ => false end.

(** The waypoint a zombie's death records. *)
Definition zombie_waypoint (k : ZombieBase.t * Game * Entity) : vector :=
  let '(_, g, e) := k in ZombieBase.GetWaypoint g e.

(** The array a zombie owns. *)
Definition zombie_array (k : ZombieBase.t * Game * Entity) : ref :=
  let '(z, _, _) := k in ZombieBase.m_WayPoints z.

(** The worlds written to the session file, in program order. *)
Fixpoint saved (out : list effect) : list World :=
  match out with
  | [] => []
  | EffJsonSaveFile _ data :: out' => data :: saved out'
  | _ :: out' => saved out'
  end.

(** The world a mission call is given. *)
Definition event_world (ev : mission_event) : World :=
  match ev with
  | EvUpdate _ w => w
  | EvMissionFinish w => w
  end.

(** The effect, when it is a file write, goes to [path]. *)
Definition writes_to (path : string) (x : effect) : Prop :=
  match x with
  | EffJsonSaveFile p _ => p = path
  | _ => True
  end.

(** [a < b] on floats; false as soon as one side is not a number. *)
Definition float_lt (a b : float) : bool := SFltb a b.

(** The float is not a number. *)
Definition float_is_nan (a : float) : bool :=
  match a with
  | S754_nan => true
  | _ => false
  end.

(** The timer is strictly below the autosave interval, or not a number. *)
Definition timer_low (self : MissionServer.t) : Prop :=
  float_lt (MissionServer.m_AutosaveTimer self) MissionServer.AUTOSAVE_INTERVAL
  = true
  \/ float_is_nan (MissionServer.m_AutosaveTimer self) = true.

(** The comparison [timer >= AUTOSAVE_INTERVAL] of the code is false. *)
Definition below_interval (self : MissionServer.t) : Prop :=
  Float.ge (MissionServer.m_AutosaveTimer self) MissionServer.AUTOSAVE_INTERVAL
  = false.

(** Every value the second component of the file name can take: the
    remainders of a division by 60, of either sign. *)
Definition second_values : list Z :=
  map (fun n => (Z.of_nat n - 59)%Z) (seq 0 119).

(** The tail of the file name for a given second. *)
Definition second_suffix (second : Z) : string :=
  Int.to_string second +:+ "_Heatmap.json".

(** ** Concrete data for the examples *)

Module Sample.
(** Sampling periods of the spec's scenario: 10 s on foot, 2 s in a vehicle. *)
Definition g_Game : DayZGame :=
  {| HEATMAP_TICK_TIME := Float.of_int 10;
     HEATMAP_TICK_TIME_VEHICLE := Float.of_int 2 |}.

Definition server (ms : Z) : Game :=
  {| IsDedicatedServer := true; GetTime := ms; GetDate := (2024, 3, 5, 14, 7)%Z |}.

Definition origin : vector :=
  {| vec0 := Float.of_int 100; vec1 := Float.of_int 7; vec2 := Float.of_int 200 |}.

Definition on_foot : Entity :=
  {| IsPlayerSelected := true; IsAlive := true; IsInVehicle := false;
     GetPosition := origin |}.

Definition driving : Entity :=
  {| IsPlayerSelected := true; IsAlive := true; IsInVehicle := true;
     GetPosition := origin |}.

Definition dead : Entity :=
  {| IsPlayerSelected := true; IsAlive := false; IsInVehicle := false;
     GetPosition := origin |}.

Definition unselected : Entity :=
  {| IsPlayerSelected := false; IsAlive := true; IsInVehicle := false;
     GetPosition := origin |}.

(** A tick of [secs] seconds at clock [ms]. *)
Definition tick_of (secs ms : Z) (e : Entity) : Tick :=
  {| deltaTime := Float.of_int secs; game := server ms; entity := e |}.

(** A fresh agent right after its selection, in an empty world. *)
Definition agent0 : agent_state :=
  eAIBase.OnSelectPlayer (server 0) (eAIBase.new, empty_world).

(** An agent that was never selected. *)
Definition stray : agent_state := (eAIBase.new, empty_world).

(** The file system refuses to create the session folder. *)
Definition broken_fs : FileSystem :=
  {| FileExist := fun _ => false; MakeDirectory := fun _ => false |}.

Definition good_fs : FileSystem :=
  {| FileExist := fun _ => false; MakeDirectory := fun _ => true |}.

(** Prints the autosave interval as [120]; other floats are never printed
    by the modelled code. *)
Definition float_to_string (f : float) : string :=
  match f with
  | S754_finite false 15728640 (-17) => "120"
  | _ => "?"
  end.

(** A mission right after [OnInit], with its session file name set. *)
Definition mission_on (fs : FileSystem) : MissionServer.t :=
  fst (MissionServer.OnInit float_to_string fs (server 33) MissionServer.new).

Definition mission0 : MissionServer.t := mission_on good_fs.

Definition slice (secs : Z) : float * World := (Float.of_int secs, empty_world).
(** Prints nothing of the vector; the text of the message plays no part. *)
Definition vector_to_string (v : vector) : string := "<x, t, z>".

(** Two zombies created one after the other in a world that already holds
    the agent's trajectory. *)
Definition zombie1 : ZombieBase.t * World := ZombieBase.new (snd agent0).
Definition zombie2 : ZombieBase.t * World := ZombieBase.new (snd zombie1).
End Sample.

(** ** The order of floats *)

Lemma SFleb_trans (x y z : spec_float) :
  SFleb x y = true -> SFleb y z = true -> SFleb x z = true.
Proof.
  unfold SFleb, SFcompare.
  destruct x as [sx|sx| |sx mx ex], y as [sy|sy| |sy my ey],
           z as [sz|sz| |sz mz ez];
    try destruct sx; try destruct sy; try destruct sz;
    try reflexivity; try discriminate.
  all: change (Pos.compare_cont Eq) with Pos.compare.
  all: destruct (Z.compare_spec ex ey), (Z.compare_spec ey ez),
         (Z.compare_spec ex ez); try lia; try reflexivity; try discriminate.
  all: destruct (Pos.compare_spec mx my), (Pos.compare_spec my mz),
         (Pos.compare_spec mx mz); simpl; try lia; try reflexivity;
         try discriminate.
Qed.

Lemma Float_ge_trans (a b c : float) :
  Float.ge a b = true -> Float.ge b c = true -> Float.ge a c = true.
Proof. unfold Float.ge. intros Hab Hbc. exact (SFleb_trans c b a Hbc Hab). Qed.

(** With the vehicle period no longer than the normal one, the code's check
    is a comparison with the applicable threshold. *)
Lemma reached_applicable (g_Game : DayZGame) (time : float) (tk : Tick) :
  Float.ge (HEATMAP_TICK_TIME g_Game) (HEATMAP_TICK_TIME_VEHICLE g_Game) = true ->
  reached g_Game time (IsInVehicle (entity tk))
  = Float.ge time (applicable_threshold g_Game tk).
Proof.
  intros Hle. unfold reached, applicable_threshold.
  destruct (IsInVehicle (entity tk)).
  - rewrite andb_true_r.
    destruct (Float.ge time (HEATMAP_TICK_TIME g_Game)) eqn:Hn.
    + rewrite (Float_ge_trans _ _ _ Hn Hle). reflexivity.
    + apply orb_false_r.
  - rewrite andb_false_r. reflexivity.
Qed.

(** ** The heap *)

Lemma trajectory_Insert_eq (h : list (list vector)) (c c' : HeatmapData.t)
    (a : ref) (v : vector) :
  a < length h ->
  trajectory {| heap := heap_Insert a v h; CURRENT_HEATMAP := c |} a
  = trajectory {| heap := h; CURRENT_HEATMAP := c' |} a ++ [v].
Proof.
  intros Ha. unfold trajectory, heap_Insert. cbn [heap].
  rewrite list_lookup_alter_eq.
  destruct (lookup_lt_is_Some_2 h a Ha) as [arr Harr].
  rewrite Harr. reflexivity.
Qed.

Lemma trajectory_Insert_ne (h : list (list vector)) (c c' : HeatmapData.t)
    (a b : ref) (v : vector) :
  a <> b ->
  trajectory {| heap := heap_Insert a v h; CURRENT_HEATMAP := c |} b
  = trajectory {| heap := h; CURRENT_HEATMAP := c' |} b.
Proof.
  intros Hab. unfold trajectory, heap_Insert. cbn [heap].
  rewrite list_lookup_alter_ne by exact Hab. reflexivity.
Qed.

Lemma length_heap_Insert (a : ref) (v : vector) (h : list (list vector)) :
  length (heap_Insert a v h) = length h.
Proof. apply length_alter. Qed.

(** ** One tick *)

Section OneTick.
Variable g_Game : DayZGame.

(** What an eligible tick does to a tracked agent. *)
Lemma tick_eligible (self : eAIBase.t) (w : World) (a : ref) (tk : Tick) :
  eAIBase.m_AIWayPoints self = Some a ->
  eligible tk = true ->
  let time := Float.add (eAIBase.m_HeatmapTime self) (deltaTime tk) in
  tick g_Game (self, w) tk
  = if reached g_Game time (IsInVehicle (entity tk))
    then ({| eAIBase.m_HeatmapTime := Float.zero;
             eAIBase.m_AIWayPoints := Some a |},
          {| heap := heap_Insert a (eAIBase.GetWaypoint (game tk) (entity tk))
                       (heap w);
             CURRENT_HEATMAP := CURRENT_HEATMAP w |})
    else ({| eAIBase.m_HeatmapTime := time;
             eAIBase.m_AIWayPoints := Some a |}, w).
Proof.
  intros Ha He. unfold eligible in He.
  apply andb_true_iff in He as [Hs Hl].
  unfold tick, eAIBase.OnScheduledTick, reached.
  rewrite Ha, Hs, Hl. reflexivity.
Qed.

(** A tick that is not eligible, or on an agent without trajectory, does
    nothing. *)
Lemma tick_not_eligible (st : agent_state) (tk : Tick) :
  eligible tk = false -> tick g_Game st tk = st.
Proof.
  intros He. destruct st as [self w].
  unfold tick, eAIBase.OnScheduledTick.
  destruct (eAIBase.m_AIWayPoints self); [|reflexivity].
  unfold eligible in He. apply andb_false_iff in He as [-> | ->];
    simpl; rewrite ?orb_true_r; reflexivity.
Qed.

Lemma tick_tracked (st : agent_state) (a : ref) (tk : Tick) :
  tracked st a -> tracked (tick g_Game st tk) a.
Proof.
  destruct st as [self w]. intros [Ha Hlt]. simpl in Ha, Hlt.
  destruct (eligible tk) eqn:He.
  - rewrite (tick_eligible self w a tk Ha He).
    destruct (reached _ _ _); split; simpl; try reflexivity; try assumption.
    rewrite length_heap_Insert. assumption.
  - rewrite (tick_not_eligible _ tk He). split; assumption.
Qed.

Lemma ticks_tracked (tks : list Tick) (st : agent_state) (a : ref) :
  tracked st a -> tracked (ticks g_Game st tks) a.
Proof.
  revert st. induction tks as [|tk tks IH]; intros st Hst; [exact Hst|].
  simpl. apply IH, tick_tracked, Hst.
Qed.

(** On an eligible tick of a tracked agent a waypoint is appended exactly
    when the code's threshold check passes on the incremented accumulator. *)
Lemma fired_tick (st : agent_state) (a : ref) (tk : Tick) :
  tracked st a -> eligible tk = true ->
  fired st (tick g_Game st tk)
  = reached g_Game (Float.add (eAIBase.m_HeatmapTime (fst st)) (deltaTime tk))
      (IsInVehicle (entity tk)).
Proof.
  destruct st as [self w]. intros [Ha Hlt] He. simpl in Ha, Hlt.
  unfold fired. simpl fst. rewrite Ha.
  rewrite (tick_eligible self w a tk Ha He). simpl.
  destruct (reached _ _ _); simpl snd.
  - destruct w as [h c]. simpl in *.
    rewrite (trajectory_Insert_eq h c c) by assumption.
    rewrite length_app. simpl. apply Nat.ltb_lt. lia.
  - apply Nat.ltb_irrefl.
Qed.

(** The accumulator after an eligible tick: zero when it fired, the
    incremented value otherwise. *)
Lemma time_tick (st : agent_state) (a : ref) (tk : Tick) :
  tracked st a -> eligible tk = true ->
  eAIBase.m_HeatmapTime (fst (tick g_Game st tk))
  = if fired st (tick g_Game st tk) then Float.zero
    else Float.add (eAIBase.m_HeatmapTime (fst st)) (deltaTime tk).
Proof.
  intros Hst He. rewrite (fired_tick st a tk Hst He).
  destruct st as [self w]. destruct Hst as [Ha Hlt]. simpl in Ha.
  rewrite (tick_eligible self w a tk Ha He). simpl.
  destruct (reached _ _ _); reflexivity.
Qed.
End OneTick.

(** ** Sequences of ticks *)

Section TickSequences.
Variable g_Game : DayZGame.

Lemma ticks_app (st : agent_state) (l1 l2 : list Tick) :
  ticks g_Game st (l1 ++ l2) = ticks g_Game (ticks g_Game st l1) l2.
Proof. unfold ticks. apply fold_left_app. Qed.

Lemma ticks_snoc (st : agent_state) (l : list Tick) (tk : Tick) :
  ticks g_Game st (l ++ [tk]) = tick g_Game (ticks g_Game st l) tk.
Proof. rewrite ticks_app. reflexivity. Qed.

Lemma accumulate_snoc (base : float) (l : list Tick) (tk : Tick) :
  accumulate base (l ++ [tk]) = Float.add (accumulate base l) (deltaTime tk).
Proof. unfold accumulate. rewrite fold_left_app. reflexivity. Qed.

Lemma quiet_snoc (st : agent_state) (seg : list Tick) (u : Tick) :
  quiet g_Game st (seg ++ [u]) ->
  quiet g_Game st seg /\ fired_at g_Game st seg u = false.
Proof.
  intros Hq. split.
  - intros p v q Hseg. apply (Hq p v (q ++ [u])).
    rewrite Hseg, <- app_assoc. reflexivity.
  - apply (Hq seg u []). reflexivity.
Qed.

Lemma quiet_prefix (st : agent_state) (p rest : list Tick) :
  quiet g_Game st (p ++ rest) -> quiet g_Game st p.
Proof.
  intros Hq p' v q Hp. apply (Hq p' v (q ++ rest)).
  rewrite Hp, <- app_assoc. reflexivity.
Qed.

(** While no tick fires, the accumulator is the running sum. *)
Lemma quiet_accumulate (st : agent_state) (a : ref) (seg : list Tick) :
  tracked st a ->
  Forall (fun tk => eligible tk = true) seg ->
  quiet g_Game st seg ->
  eAIBase.m_HeatmapTime (fst (ticks g_Game st seg))
  = accumulate (eAIBase.m_HeatmapTime (fst st)) seg.
Proof.
  intros Hst. induction seg as [|u seg IH] using rev_ind; intros Hel Hq.
  - reflexivity.
  - apply Forall_app in Hel as [Hel Hu]. inversion Hu as [|? ? Heu _]; subst.
    apply quiet_snoc in Hq as [Hq Hf].
    rewrite ticks_snoc, accumulate_snoc.
    rewrite (time_tick g_Game _ a u (ticks_tracked g_Game seg st a Hst) Heu).
    unfold fired_at in Hf. rewrite Hf, (IH Hel Hq). reflexivity.
Qed.

(** After a quiet segment, a tick fires iff the running sum passes the
    code's check. *)
Lemma fired_at_reached (st : agent_state) (a : ref) (seg : list Tick)
    (tk : Tick) :
  tracked st a ->
  Forall (fun tk => eligible tk = true) seg -> eligible tk = true ->
  quiet g_Game st seg ->
  fired_at g_Game st seg tk
  = reached g_Game (accumulate (eAIBase.m_HeatmapTime (fst st)) (seg ++ [tk]))
      (IsInVehicle (entity tk)).
Proof.
  intros Hst Hel He Hq. unfold fired_at.
  rewrite (fired_tick g_Game _ a tk (ticks_tracked g_Game seg st a Hst) He).
  rewrite (quiet_accumulate st a seg Hst Hel Hq), accumulate_snoc.
  reflexivity.
Qed.

(** The accumulator at the start of a segment is the base of its sum. *)
Lemma segment_base_time (st : agent_state) (a : ref) (before : list Tick)
    (base : float) :
  tracked st a ->
  Forall (fun tk => eligible tk = true) before ->
  segment_base g_Game st (eAIBase.m_HeatmapTime (fst st)) before base ->
  eAIBase.m_HeatmapTime (fst (ticks g_Game st before)) = base.
Proof.
  intros Hst Hel [[-> ->] | (b & f & -> & Hf & ->)].
  - reflexivity.
  - apply Forall_app in Hel as [_ Hf']. inversion Hf' as [|? ? Hef _]; subst.
    rewrite ticks_snoc.
    rewrite (time_tick g_Game _ a f (ticks_tracked g_Game b st a Hst) Hef).
    unfold fired_at in Hf. rewrite Hf. reflexivity.
Qed.

(** The throttle law holds from any state, with the accumulator of that
    state as the start of the first sum. *)
Lemma throttle_law_from (st : agent_state) (a : ref) (tks : list Tick) :
  Float.ge (HEATMAP_TICK_TIME g_Game) (HEATMAP_TICK_TIME_VEHICLE g_Game) = true ->
  tracked st a ->
  Forall (fun tk => eligible tk = true) tks ->
  throttle_law g_Game st (eAIBase.m_HeatmapTime (fst st)) tks.
Proof.
  intros Hle Hst Hel before seg tk after base -> Hbase Hq.
  apply Forall_app in Hel as [Hb Hel].
  apply Forall_app in Hel as [Hseg Hel].
  inversion Hel as [|? ? Hetk _]; subst.
  pose proof (ticks_tracked g_Game before st a Hst) as Hs.
  pose proof (segment_base_time st a before base Hst Hb Hbase) as Htime.
  set (s := ticks g_Game st before) in *.
  assert (Hfire : fired_at g_Game s seg tk
                  = Float.ge (accumulate base (seg ++ [tk]))
                      (applicable_threshold g_Game tk)).
  { rewrite (fired_at_reached s a seg tk Hs Hseg Hetk Hq), Htime.
    apply reached_applicable, Hle. }
  split.
  - rewrite Hfire. split.
    + intros Hr. split; [exact Hr|].
      intros p u q Hp. subst seg.
      apply Forall_app in Hseg as [Hp Hu].
      pose proof (Forall_inv Hu) as Heu. cbv beta in Heu.
      rewrite <- (reached_applicable g_Game _ u Hle), <- Htime.
      rewrite <- (fired_at_reached s a p u Hs Hp Heu (quiet_prefix s p _ Hq)).
      apply (Hq p u q). reflexivity.
    + intros [Hr _]. exact Hr.
  - intros Hf. rewrite app_assoc, ticks_snoc, ticks_app. fold s.
    rewrite (time_tick g_Game _ a tk (ticks_tracked g_Game seg s a Hs) Hetk).
    unfold fired_at in Hf. rewrite Hf. reflexivity.
Qed.
End TickSequences.

Lemma quietb_quiet (g_Game : DayZGame) (seg : list Tick) (st : agent_state) :
  quietb g_Game st seg = true -> quiet g_Game st seg.
Proof.
  revert st. induction seg as [|v seg IH]; intros st Hb p u q Hseg.
  - destruct p; discriminate.
  - simpl in Hb. apply andb_true_iff in Hb as [Hv Hrest].
    destruct p as [|v' p]; simpl in Hseg; injection Hseg as -> Hseg.
    + unfold fired_at. simpl. apply negb_true_iff, Hv.
    + unfold fired_at. simpl. apply (IH _ Hrest p u q Hseg).
Qed.

(** ** The throttle (eAIBase.OnScheduledTick) *)

(** C1, as the code has it: for a tracked agent whose accumulator holds its
    initial value [float.MAX], with a vehicle period no longer than the normal
    one, and for every finite sequence of eligible ticks, a tick fires iff the
    sum of the [deltaTime]s first reaches the applicable threshold at that
    tick, the sum being taken on top of zero since the last fire and on top of
    [float.MAX] since the session start; right after a fire the accumulator
    is exactly zero. *)
Theorem throttle_fires_on_first_reach (g_Game : DayZGame) (st : agent_state)
    (a : ref) (tks : list Tick) :
  Float.ge (HEATMAP_TICK_TIME g_Game) (HEATMAP_TICK_TIME_VEHICLE g_Game) = true ->
  tracked st a ->
  eAIBase.m_HeatmapTime (fst st) = Float.MAX ->
  Forall (fun tk => eligible tk = true) tks ->
  throttle_law g_Game st Float.MAX tks.
Proof.
  intros Hle Hst <- Hel. exact (throttle_law_from g_Game st a tks Hle Hst Hel).
Qed.

Lemma throttle_fires_on_first_reach_witness :
  throttle_law Sample.g_Game Sample.agent0 Float.MAX
    [Sample.tick_of 1 1000 Sample.on_foot;
     Sample.tick_of 4 5000 Sample.on_foot;
     Sample.tick_of 6 11000 Sample.on_foot]
  /\ (fired_at Sample.g_Game Sample.agent0 []
        (Sample.tick_of 1 1000 Sample.on_foot) = true
      <-> first_reaches Sample.g_Game Float.MAX []
            (Sample.tick_of 1 1000 Sample.on_foot))
  /\ (fired_at Sample.g_Game
        (ticks Sample.g_Game Sample.agent0
           [Sample.tick_of 1 1000 Sample.on_foot])
        [Sample.tick_of 4 5000 Sample.on_foot]
        (Sample.tick_of 6 11000 Sample.on_foot) = true
      <-> first_reaches Sample.g_Game Float.zero
            [Sample.tick_of 4 5000 Sample.on_foot]
            (Sample.tick_of 6 11000 Sample.on_foot)).
Proof.
  assert (Hlaw : throttle_law Sample.g_Game Sample.agent0 Float.MAX
                   [Sample.tick_of 1 1000 Sample.on_foot;
                    Sample.tick_of 4 5000 Sample.on_foot;
                    Sample.tick_of 6 11000 Sample.on_foot]).
  { apply (throttle_fires_on_first_reach Sample.g_Game Sample.agent0 0).
    - vm_compute. reflexivity.
    - split; [reflexivity | vm_compute; lia].
    - reflexivity.
    - repeat constructor. }
  split; [exact Hlaw|]. split.
  - apply (Hlaw [] [] (Sample.tick_of 1 1000 Sample.on_foot)
             [Sample.tick_of 4 5000 Sample.on_foot;
              Sample.tick_of 6 11000 Sample.on_foot] Float.MAX).
    + reflexivity.
    + left. split; reflexivity.
    + apply quietb_quiet. reflexivity.
  - apply (Hlaw [Sample.tick_of 1 1000 Sample.on_foot]
             [Sample.tick_of 4 5000 Sample.on_foot]
             (Sample.tick_of 6 11000 Sample.on_foot) [] Float.zero).
    + reflexivity.
    + right. exists [], (Sample.tick_of 1 1000 Sample.on_foot).
      split; [reflexivity|]. split; [vm_compute|]; reflexivity.
    + apply quietb_quiet. vm_compute. reflexivity.
Defined.

(** C1, as the claim states it, fails: the sum since the session start is
    taken on top of zero there, yet a fresh agent fires on its very first
    eligible tick of one second, far below the 10 s period. *)
Lemma throttle_law_from_zero_fails :
  tracked Sample.agent0 0
  /\ eligible (Sample.tick_of 1 1000 Sample.on_foot) = true
  /\ ~ throttle_law Sample.g_Game Sample.agent0 Float.zero
         [Sample.tick_of 1 1000 Sample.on_foot].
Proof.
  split; [split; [reflexivity | vm_compute; lia]|].
  split; [reflexivity|].
  intros Hlaw.
  destruct (Hlaw [] [] (Sample.tick_of 1 1000 Sample.on_foot) [] Float.zero)
    as [[Hfire _] _].
  - reflexivity.
  - left. split; reflexivity.
  - intros p u q Hp. destruct p; discriminate.
  - destruct Hfire as [Hreach _]; [vm_compute; reflexivity|].
    vm_compute in Hreach. discriminate.
Qed.

(** C3: on every eligible tick of a tracked agent a waypoint is appended iff
    the incremented accumulator has reached the vehicle period while the
    agent is in a vehicle, or has reached the normal period in any state;
    and when a fire happens outside a vehicle, the [deltaTime]s accumulated
    since the previous fire add up to at least the normal period. *)
Theorem throttle_or_semantics (g_Game : DayZGame) (st : agent_state) (a : ref) :
  tracked st a ->
  (forall tk, eligible tk = true ->
     (fired st (tick g_Game st tk) = true <->
      (Float.ge (Float.add (eAIBase.m_HeatmapTime (fst st)) (deltaTime tk))
         (HEATMAP_TICK_TIME_VEHICLE g_Game) = true
       /\ IsInVehicle (entity tk) = true)
      \/ Float.ge (Float.add (eAIBase.m_HeatmapTime (fst st)) (deltaTime tk))
           (HEATMAP_TICK_TIME g_Game) = true))
  /\ (forall b f seg tk,
        Forall (fun tk => eligible tk = true) (b ++ f :: seg ++ [tk]) ->
        fired_at g_Game st b f = true ->
        quiet g_Game (ticks g_Game st (b ++ [f])) seg ->
        fired_at g_Game (ticks g_Game st (b ++ [f])) seg tk = true ->
        IsInVehicle (entity tk) = false ->
        Float.ge (accumulate Float.zero (seg ++ [tk]))
          (HEATMAP_TICK_TIME g_Game) = true).
Proof.
  intros Hst. split.
  - intros tk He. rewrite (fired_tick g_Game st a tk Hst He). unfold reached.
    rewrite orb_true_iff, andb_true_iff. reflexivity.
  - intros b f seg tk Hel Hf Hq Hfire Hfoot.
    apply Forall_app in Hel as [Hb Hel].
    inversion Hel as [|? ? Hef Hel']; subst.
    apply Forall_app in Hel' as [Hseg Htk].
    pose proof (Forall_inv Htk) as Hetk. cbv beta in Hetk.
    pose proof (ticks_tracked g_Game (b ++ [f]) st a Hst) as Hs.
    assert (Hzero : eAIBase.m_HeatmapTime (fst (ticks g_Game st (b ++ [f])))
                    = Float.zero).
    { rewrite ticks_snoc.
      rewrite (time_tick g_Game _ a f (ticks_tracked g_Game b st a Hst) Hef).
      unfold fired_at in Hf. rewrite Hf. reflexivity. }
    rewrite (fired_at_reached g_Game _ a seg tk Hs Hseg Hetk Hq) in Hfire.
    rewrite Hzero, Hfoot in Hfire. unfold reached in Hfire.
    rewrite andb_false_r in Hfire. exact Hfire.
Qed.

Lemma throttle_or_semantics_witness :
  (fired Sample.agent0
     (tick Sample.g_Game Sample.agent0 (Sample.tick_of 1 1000 Sample.driving))
   = true <->
   (Float.ge (Float.add Float.MAX (Float.of_int 1)) (Float.of_int 2) = true
    /\ true = true)
   \/ Float.ge (Float.add Float.MAX (Float.of_int 1)) (Float.of_int 10) = true)
  /\ Float.ge
       (accumulate Float.zero
          [Sample.tick_of 4 5000 Sample.on_foot;
           Sample.tick_of 6 11000 Sample.on_foot])
       (Float.of_int 10) = true.
Proof.
  destruct (throttle_or_semantics Sample.g_Game Sample.agent0 0) as [H1 H2].
  - split; [reflexivity | vm_compute; lia].
  - split.
    + apply (H1 (Sample.tick_of 1 1000 Sample.driving)). reflexivity.
    + apply (H2 [] (Sample.tick_of 1 1000 Sample.on_foot)
                [Sample.tick_of 4 5000 Sample.on_foot]
                (Sample.tick_of 6 11000 Sample.on_foot)).
      * repeat constructor.
      * vm_compute. reflexivity.
      * apply quietb_quiet. vm_compute. reflexivity.
      * vm_compute. reflexivity.
      * reflexivity.
Defined.

(** C8: ticks of an entity that is not alive or not selected never append a
    waypoint and leave the agent and the world, the accumulator included,
    exactly as they were, however many ticks there are and whatever their
    [deltaTime]s. *)
Theorem ineligible_ticks_frozen (g_Game : DayZGame) (st : agent_state)
    (tks : list Tick) :
  Forall (fun tk => IsAlive (entity tk) = false
                    \/ IsPlayerSelected (entity tk) = false) tks ->
  ticks g_Game st tks = st /\ quiet g_Game st tks.
Proof.
  intros Hin.
  assert (Hfix : forall l,
             Forall (fun tk => IsAlive (entity tk) = false
                               \/ IsPlayerSelected (entity tk) = false) l ->
             ticks g_Game st l = st).
  { induction l as [|u l IH] using rev_ind; intros Hl; [reflexivity|].
    apply Forall_app in Hl as [Hl Hu]. pose proof (Forall_inv Hu) as Hu'.
    rewrite ticks_snoc, (IH Hl). apply tick_not_eligible.
    unfold eligible. destruct Hu' as [-> | ->];
      rewrite ?andb_false_r; reflexivity. }
  split; [exact (Hfix tks Hin)|].
  intros p u q ->. apply Forall_app in Hin as [Hp Hu].
  unfold fired_at. rewrite <- ticks_snoc, (Hfix p Hp).
  rewrite (Hfix (p ++ [u])).
  - unfold fired. destruct (eAIBase.m_AIWayPoints (fst st)); [|reflexivity].
    apply Nat.ltb_irrefl.
  - apply Forall_app. split; [exact Hp|].
    constructor; [exact (Forall_inv Hu) | constructor].
Qed.

Lemma ineligible_ticks_frozen_witness :
  ticks Sample.g_Game Sample.agent0
    [Sample.tick_of 50 1000 Sample.dead; Sample.tick_of 70 2000 Sample.unselected]
  = Sample.agent0
  /\ quiet Sample.g_Game Sample.agent0
       [Sample.tick_of 50 1000 Sample.dead;
        Sample.tick_of 70 2000 Sample.unselected].
Proof.
  apply (ineligible_ticks_frozen Sample.g_Game Sample.agent0).
  constructor; [left; reflexivity|].
  constructor; [right; reflexivity|].
  constructor.
Defined.

(** ** The death hook (eAIBase.EEKilled) *)

(** The heap cell of the trajectory after [EEKilled]. *)
Lemma EEKilled_at (self : eAIBase.t) (w : World) (a : ref) (g : Game)
    (e : Entity) :
  eAIBase.m_AIWayPoints self = Some a -> a < length (heap w) ->
  exists tr,
    heap (snd (eAIBase.EEKilled g e (self, w))) !! a = Some tr
    /\ tr = trajectory w a ++ [eAIBase.GetWaypoint g e].
Proof.
  intros Ha Hlt. unfold eAIBase.EEKilled. rewrite Ha. cbn [snd heap].
  unfold heap_Insert, trajectory. rewrite list_lookup_alter_eq.
  destruct (lookup_lt_is_Some_2 (heap w) a Hlt) as [arr Harr].
  rewrite Harr. exists (arr ++ [eAIBase.GetWaypoint g e]).
  split; reflexivity.
Qed.

(** C6: when the agent holds a trajectory, [EEKilled] appends exactly one
    waypoint to it and the same waypoint to the aggregate's death points,
    and touches nothing else; when the agent holds none, [EEKilled] changes
    nothing. *)
Theorem EEKilled_dual_write (g : Game) (e : Entity) (self : eAIBase.t)
    (w : World) :
  (forall a, eAIBase.m_AIWayPoints self = Some a -> a < length (heap w) ->
     let st' := eAIBase.EEKilled g e (self, w) in
     fst st' = self
     /\ trajectory (snd st') a = trajectory w a ++ [eAIBase.GetWaypoint g e]
     /\ HeatmapData.m_AIDeathPoints (CURRENT_HEATMAP (snd st'))
        = HeatmapData.m_AIDeathPoints (CURRENT_HEATMAP w)
          ++ [eAIBase.GetWaypoint g e]
     /\ (forall b, b <> a -> trajectory (snd st') b = trajectory w b)
     /\ length (heap (snd st')) = length (heap w)
     /\ HeatmapData.m_AIWayPoints (CURRENT_HEATMAP (snd st'))
        = HeatmapData.m_AIWayPoints (CURRENT_HEATMAP w)
     /\ HeatmapData.m_ZombiePoints (CURRENT_HEATMAP (snd st'))
        = HeatmapData.m_ZombiePoints (CURRENT_HEATMAP w))
  /\ (eAIBase.m_AIWayPoints self = None ->
      eAIBase.EEKilled g e (self, w) = (self, w)).
Proof.
  split.
  - intros a Ha Hlt. unfold eAIBase.EEKilled. rewrite Ha. cbn zeta.
    destruct w as [h c]. cbn [fst snd heap CURRENT_HEATMAP] in *.
    repeat split.
    + apply trajectory_Insert_eq, Hlt.
    + intros b Hb. apply trajectory_Insert_ne. congruence.
    + apply length_heap_Insert.
  - intros Ha. unfold eAIBase.EEKilled. rewrite Ha. reflexivity.
Qed.

Lemma EEKilled_dual_write_witness :
  (trajectory (snd (eAIBase.EEKilled (Sample.server 65999) Sample.dead
                      Sample.agent0)) 0
   = [eAIBase.GetWaypoint (Sample.server 65999) Sample.dead]
   /\ HeatmapData.m_AIDeathPoints
        (CURRENT_HEATMAP (snd (eAIBase.EEKilled (Sample.server 65999)
                                 Sample.dead Sample.agent0)))
      = [eAIBase.GetWaypoint (Sample.server 65999) Sample.dead])
  /\ eAIBase.EEKilled (Sample.server 65999) Sample.dead Sample.stray
     = Sample.stray.
Proof.
  split.
  - destruct (EEKilled_dual_write (Sample.server 65999) Sample.dead
                (fst Sample.agent0) (snd Sample.agent0)) as [H _].
    destruct (H 0) as (_ & Htraj & Hdeath & _).
    + reflexivity.
    + vm_compute. lia.
    + split; [exact Htraj | exact Hdeath].
  - destruct (EEKilled_dual_write (Sample.server 65999) Sample.dead
                (fst Sample.stray) (snd Sample.stray)) as [_ H].
    apply H. reflexivity.
Defined.

(** After its death an agent's old trajectory is out of reach of every hook
    that can still run. *)
Lemma post_mortem_step (g_Game : DayZGame) (st : agent_state) (a : ref)
    (tr : list vector) (ev : agent_event) :
  heap (snd st) !! a = Some tr -> post_mortem ev ->
  heap (snd (agent_step g_Game st ev)) !! a = Some tr.
Proof.
  intros Htr Hev. destruct ev as [g | tk | g e]; simpl in *.
  - destruct st as [self w]. unfold eAIBase.OnSelectPlayer.
    destruct (IsDedicatedServer g); [|exact Htr].
    cbn [snd heap heap_new]. apply lookup_app_l_Some, Htr.
  - rewrite tick_not_eligible; [exact Htr|].
    unfold eligible. rewrite Hev. apply andb_false_r.
  - contradiction.
Qed.

Lemma post_mortem_run (g_Game : DayZGame) (evs : list agent_event)
    (st : agent_state) (a : ref) (tr : list vector) :
  heap (snd st) !! a = Some tr -> Forall post_mortem evs ->
  heap (snd (agent_run g_Game st evs)) !! a = Some tr.
Proof.
  revert st. induction evs as [|ev evs IH]; intros st Htr Hevs; [exact Htr|].
  inversion Hevs as [|? ? Hev Hrest]; subst. simpl.
  apply IH; [|exact Hrest]. apply post_mortem_step; assumption.
Qed.

(** C9: the waypoint [EEKilled] appends stays the last element of the
    agent's trajectory through everything that can follow the death: ticks,
    on which the engine reports the agent as not alive, and selections. *)
Theorem death_waypoint_is_last (g_Game : DayZGame) (st : agent_state) (a : ref)
    (g : Game) (e : Entity) (evs : list agent_event) :
  tracked st a ->
  Forall post_mortem evs ->
  let fin := agent_run g_Game (eAIBase.EEKilled g e st) evs in
  trajectory (snd fin) a
  = trajectory (snd st) a ++ [eAIBase.GetWaypoint g e]
  /\ last (trajectory (snd fin) a) = Some (eAIBase.GetWaypoint g e).
Proof.
  intros [Ha Hlt] Hevs fin. destruct st as [self w]. simpl in Ha, Hlt.
  destruct (EEKilled_at self w a g e Ha Hlt) as [tr [Htr Hold]].
  assert (Hfin : trajectory (snd fin) a = tr).
  { unfold trajectory, fin.
    rewrite (post_mortem_run g_Game evs _ a tr Htr Hevs). reflexivity. }
  rewrite Hfin, Hold. split; [reflexivity | apply last_snoc].
Qed.

Lemma death_waypoint_is_last_witness :
  trajectory
    (snd (agent_run Sample.g_Game
            (eAIBase.EEKilled (Sample.server 65999) Sample.dead Sample.agent0)
            [EvScheduledTick (Sample.tick_of 50 70000 Sample.dead);
             EvSelectPlayer (Sample.server 80000);
             EvScheduledTick (Sample.tick_of 50 120000 Sample.dead)])) 0
  = trajectory (snd Sample.agent0) 0
    ++ [eAIBase.GetWaypoint (Sample.server 65999) Sample.dead]
  /\ last (trajectory
       (snd (agent_run Sample.g_Game
               (eAIBase.EEKilled (Sample.server 65999) Sample.dead Sample.agent0)
               [EvScheduledTick (Sample.tick_of 50 70000 Sample.dead);
                EvSelectPlayer (Sample.server 80000);
                EvScheduledTick (Sample.tick_of 50 120000 Sample.dead)])) 0)
     = Some (eAIBase.GetWaypoint (Sample.server 65999) Sample.dead).
Proof.
  apply (death_waypoint_is_last Sample.g_Game Sample.agent0 0).
  - split; [reflexivity | vm_compute; lia].
  - constructor; [reflexivity|].
    constructor; [exact I|].
    constructor; [reflexivity | constructor].
Defined.

(** ** The autosave (MissionServer) *)

Lemma mission_run_cons (self : MissionServer.t) (ev : mission_event)
    (evs : list mission_event) :
  mission_run self (ev :: evs)
  = (fst (mission_run (fst (mission_step self ev)) evs),
     snd (mission_step self ev)
     ++ snd (mission_run (fst (mission_step self ev)) evs)).
Proof.
  simpl. destruct (mission_step self ev) as [self1 out1]. simpl.
  destruct (mission_run self1 evs) as [self2 out2]. reflexivity.
Qed.

Lemma mission_run_app (l1 l2 : list mission_event) (self : MissionServer.t) :
  mission_run self (l1 ++ l2)
  = (fst (mission_run (fst (mission_run self l1)) l2),
     snd (mission_run self l1)
     ++ snd (mission_run (fst (mission_run self l1)) l2)).
Proof.
  revert self. induction l1 as [|ev l1 IH]; intros self.
  - simpl. destruct (mission_run self l2). reflexivity.
  - rewrite <- app_comm_cons, !mission_run_cons, IH. simpl.
    rewrite app_assoc. reflexivity.
Qed.

Lemma writes_app (o1 o2 : list effect) :
  writes (o1 ++ o2) = writes o1 ++ writes o2.
Proof. unfold writes. apply filter_app. Qed.

(** Only [OnInit] assigns the session file name. *)
Lemma mission_step_name (self : MissionServer.t) (ev : mission_event) :
  MissionServer.m_SessionFileName (fst (mission_step self ev))
  = MissionServer.m_SessionFileName self.
Proof.
  destruct ev as [ts w | w]; simpl; [|reflexivity].
  unfold MissionServer.OnUpdate. destruct (Float.ge _ _); reflexivity.
Qed.

Lemma mission_run_name (evs : list mission_event) (self : MissionServer.t) :
  MissionServer.m_SessionFileName (fst (mission_run self evs))
  = MissionServer.m_SessionFileName self.
Proof.
  revert self. induction evs as [|ev evs IH]; intros self; [reflexivity|].
  rewrite mission_run_cons. simpl. rewrite IH. apply mission_step_name.
Qed.

Lemma SaveHeatmapData_named (self : MissionServer.t) (w : World) :
  MissionServer.m_SessionFileName self <> "" ->
  MissionServer.SaveHeatmapData self w
  = [EffJsonSaveFile (MissionServer.m_SessionFileName self) w].
Proof.
  intros Hname. unfold MissionServer.SaveHeatmapData.
  apply String.eqb_neq in Hname. rewrite Hname. reflexivity.
Qed.

Lemma SaveHeatmapData_unnamed (self : MissionServer.t) (w : World) :
  MissionServer.m_SessionFileName self = "" ->
  MissionServer.SaveHeatmapData self w = [].
Proof.
  intros Hname. unfold MissionServer.SaveHeatmapData. rewrite Hname.
  reflexivity.
Qed.

(** A tick below the interval only adds to the timer. *)
Lemma OnUpdate_below (timeslice : float) (self : MissionServer.t) (w : World) :
  Float.ge (Float.add (MissionServer.m_AutosaveTimer self) timeslice)
    MissionServer.AUTOSAVE_INTERVAL = false ->
  MissionServer.OnUpdate timeslice self w
  = ({| MissionServer.m_AutosaveTimer :=
          Float.add (MissionServer.m_AutosaveTimer self) timeslice;
        MissionServer.m_SessionFileName :=
          MissionServer.m_SessionFileName self |}, []).
Proof. intros H. unfold MissionServer.OnUpdate. rewrite H. reflexivity. Qed.

(** A tick that reaches the interval resets the timer and saves. *)
Lemma OnUpdate_due (timeslice : float) (self : MissionServer.t) (w : World) :
  Float.ge (Float.add (MissionServer.m_AutosaveTimer self) timeslice)
    MissionServer.AUTOSAVE_INTERVAL = true ->
  MissionServer.m_AutosaveTimer (fst (MissionServer.OnUpdate timeslice self w))
  = Float.of_int 0
  /\ writes (snd (MissionServer.OnUpdate timeslice self w))
     = writes (MissionServer.SaveHeatmapData self w).
Proof.
  intros H. unfold MissionServer.OnUpdate. rewrite H. simpl.
  split; [reflexivity|]. rewrite writes_app. simpl. rewrite app_nil_r.
  reflexivity.
Qed.

Lemma autosave_sum_snoc (base : float) (l : list (float * World))
    (x : float * World) :
  autosave_sum base (l ++ [x]) = Float.add (autosave_sum base l) (fst x).
Proof. unfold autosave_sum. rewrite fold_left_app. reflexivity. Qed.

Lemma never_due_sound (l : list (float * World)) (base : float) :
  never_due base l = true ->
  forall p u q, l = p ++ u :: q ->
    Float.ge (autosave_sum base (p ++ [u])) MissionServer.AUTOSAVE_INTERVAL
    = false.
Proof.
  revert base. induction l as [|x l IH]; intros base Hb p u q Hl.
  - destruct p; discriminate.
  - simpl in Hb. apply andb_true_iff in Hb as [Hx Hrest].
    destruct p as [|y p]; simpl in Hl; injection Hl as -> Hl.
    + simpl. apply negb_true_iff, Hx.
    + simpl. apply (IH _ Hrest p u q Hl).
Qed.

(** While no prefix reaches the interval, the ticks only add up. *)
Lemma updates_below (pre : list (float * World)) (self : MissionServer.t) :
  (forall p u q, pre = p ++ u :: q ->
     Float.ge (autosave_sum (MissionServer.m_AutosaveTimer self) (p ++ [u]))
       MissionServer.AUTOSAVE_INTERVAL = false) ->
  mission_run self (updates pre)
  = ({| MissionServer.m_AutosaveTimer :=
          autosave_sum (MissionServer.m_AutosaveTimer self) pre;
        MissionServer.m_SessionFileName :=
          MissionServer.m_SessionFileName self |}, []).
Proof.
  revert self. induction pre as [|x pre IH]; intros self Hlow.
  - destruct self. reflexivity.
  - change (updates (x :: pre)) with (EvUpdate (fst x) (snd x) :: updates pre).
    rewrite mission_run_cons. simpl mission_step.
    rewrite (OnUpdate_below (fst x) self (snd x)) by exact (Hlow [] x pre eq_refl).
    simpl fst. simpl snd. rewrite IH.
    + reflexivity.
    + intros p u q Hp. simpl MissionServer.m_AutosaveTimer.
      apply (Hlow (x :: p) u q). rewrite Hp. reflexivity.
Qed.

(** C7: the autosave interval is 120 seconds; from a timer at zero, the
    ticks before the sum of the timeslices first reaches the interval only add
    to the timer and have no effect; the tick at which it does calls
    [SaveHeatmapData] exactly once, which with the session file name set is
    exactly one write of the aggregate, and the timer is zero afterwards. *)
Theorem autosave_fires_at_interval (self : MissionServer.t)
    (pre : list (float * World)) (timeslice : float) (w : World) :
  MissionServer.m_AutosaveTimer self = Float.of_int 0 ->
  (forall p u q, pre = p ++ u :: q ->
     Float.ge (autosave_sum (Float.of_int 0) (p ++ [u]))
       MissionServer.AUTOSAVE_INTERVAL = false) ->
  Float.ge (autosave_sum (Float.of_int 0) (pre ++ [(timeslice, w)]))
    MissionServer.AUTOSAVE_INTERVAL = true ->
  MissionServer.AUTOSAVE_INTERVAL = Float.of_int 120
  /\ snd (mission_run self (updates pre)) = []
  /\ MissionServer.m_AutosaveTimer (fst (mission_run self (updates pre)))
     = autosave_sum (Float.of_int 0) pre
  /\ snd (mission_run self (updates (pre ++ [(timeslice, w)])))
     = MissionServer.SaveHeatmapData self w
       ++ [EffPrint "[Heatmap] Auto-saved heatmap data"]
  /\ (MissionServer.m_SessionFileName self <> "" ->
      writes (snd (mission_run self (updates (pre ++ [(timeslice, w)]))))
      = [EffJsonSaveFile (MissionServer.m_SessionFileName self) w])
  /\ MissionServer.m_AutosaveTimer
       (fst (mission_run self (updates (pre ++ [(timeslice, w)]))))
     = Float.of_int 0.
Proof.
  intros Htimer Hlow Hdue.
  rewrite <- Htimer in Hlow, Hdue.
  pose proof (updates_below pre self Hlow) as Hpre.
  rewrite autosave_sum_snoc in Hdue. simpl fst in Hdue.
  set (self1 := {| MissionServer.m_AutosaveTimer :=
                     autosave_sum (MissionServer.m_AutosaveTimer self) pre;
                   MissionServer.m_SessionFileName :=
                     MissionServer.m_SessionFileName self |}) in *.
  assert (Hrun : mission_run self (updates (pre ++ [(timeslice, w)]))
                 = MissionServer.OnUpdate timeslice self1 w).
  { unfold updates. rewrite map_app. fold (updates pre).
    rewrite mission_run_app, Hpre. simpl.
    destruct (MissionServer.OnUpdate timeslice self1 w). simpl.
    rewrite app_nil_r. reflexivity. }
  assert (Hout : snd (MissionServer.OnUpdate timeslice self1 w)
                 = MissionServer.SaveHeatmapData self w
                   ++ [EffPrint "[Heatmap] Auto-saved heatmap data"]).
  { unfold MissionServer.OnUpdate, self1.
    cbn [MissionServer.m_AutosaveTimer MissionServer.m_SessionFileName].
    rewrite Hdue. reflexivity. }
  split; [reflexivity|].
  split; [rewrite Hpre; reflexivity|].
  split; [rewrite Hpre, <- Htimer; reflexivity|].
  rewrite Hrun. split; [exact Hout|]. split.
  - intros Hname. rewrite Hout, writes_app.
    rewrite (SaveHeatmapData_named self w Hname). reflexivity.
  - exact (proj1 (OnUpdate_due timeslice self1 w Hdue)).
Qed.

Lemma autosave_fires_at_interval_witness :
  snd (mission_run Sample.mission0
         (updates [Sample.slice 30; Sample.slice 30; Sample.slice 30])) = []
  /\ MissionServer.m_AutosaveTimer
       (fst (mission_run Sample.mission0
               (updates [Sample.slice 30; Sample.slice 30; Sample.slice 30])))
     = Float.of_int 90
  /\ writes (snd (mission_run Sample.mission0
                    (updates ([Sample.slice 30; Sample.slice 30;
                               Sample.slice 30] ++ [Sample.slice 30]))))
     = [EffJsonSaveFile
          "$profile:Heatmap/session_2024-3-5_14-7-33_Heatmap.json" empty_world]
  /\ MissionServer.m_AutosaveTimer
       (fst (mission_run Sample.mission0
               (updates ([Sample.slice 30; Sample.slice 30; Sample.slice 30]
                         ++ [Sample.slice 30]))))
     = Float.of_int 0.
Proof.
  destruct (autosave_fires_at_interval Sample.mission0
              [Sample.slice 30; Sample.slice 30; Sample.slice 30]
              (Float.of_int 30) empty_world)
    as (_ & Hnone & Hsum & _ & Hwrite & Hzero).
  - reflexivity.
  - apply never_due_sound. vm_compute. reflexivity.
  - vm_compute. reflexivity.
  - split; [exact Hnone|]. split; [exact Hsum|].
    split; [|exact Hzero]. apply Hwrite. vm_compute. discriminate.
Defined.

(** C10: a mission whose session file name is the empty string never
    attempts a file write, whatever ticks and finalizations it runs; every
    call still returns, and the name stays empty. *)
Theorem uninitialized_never_writes (self : MissionServer.t)
    (evs : list mission_event) :
  MissionServer.m_SessionFileName self = "" ->
  writes (snd (mission_run self evs)) = []
  /\ MissionServer.m_SessionFileName (fst (mission_run self evs)) = "".
Proof.
  intros Hname. split; [|rewrite mission_run_name; exact Hname].
  revert self Hname. induction evs as [|ev evs IH]; intros self Hname.
  - reflexivity.
  - rewrite mission_run_cons. simpl snd. rewrite writes_app.
    rewrite IH by (rewrite mission_step_name; exact Hname).
    rewrite app_nil_r.
    destruct ev as [ts w | w]; simpl.
    + unfold MissionServer.OnUpdate. destruct (Float.ge _ _); [|reflexivity].
      simpl. rewrite writes_app, SaveHeatmapData_unnamed by exact Hname.
      reflexivity.
    + rewrite SaveHeatmapData_unnamed by exact Hname. reflexivity.
Qed.

Lemma uninitialized_never_writes_witness :
  writes (snd (mission_run MissionServer.new
                 [EvUpdate (Float.of_int 120) empty_world;
                  EvMissionFinish empty_world;
                  EvUpdate (Float.of_int 500) empty_world])) = []
  /\ MissionServer.m_SessionFileName
       (fst (mission_run MissionServer.new
               [EvUpdate (Float.of_int 120) empty_world;
                EvMissionFinish empty_world;
                EvUpdate (Float.of_int 500) empty_world])) = "".
Proof.
  apply (uninitialized_never_writes MissionServer.new). reflexivity.
Defined.

(** C2, as the code has it: with the session file name set,
    [OnMissionFinish] writes the aggregate exactly once, whatever the
    autosave timer holds, and leaves the mission's fields as they were; there
    is no finalized state: a later tick does what it would have done before,
    and writes again when the timer reaches the interval. *)
Theorem finish_flushes_once (self : MissionServer.t) (w : World) :
  MissionServer.m_SessionFileName self <> "" ->
  fst (MissionServer.OnMissionFinish self w) = self
  /\ writes (snd (MissionServer.OnMissionFinish self w))
     = [EffJsonSaveFile (MissionServer.m_SessionFileName self) w]
  /\ (forall timeslice w',
        MissionServer.OnUpdate timeslice
          (fst (MissionServer.OnMissionFinish self w)) w'
        = MissionServer.OnUpdate timeslice self w')
  /\ (forall timeslice w',
        Float.ge (Float.add (MissionServer.m_AutosaveTimer self) timeslice)
          MissionServer.AUTOSAVE_INTERVAL = true ->
        writes (snd (MissionServer.OnUpdate timeslice
                       (fst (MissionServer.OnMissionFinish self w)) w'))
        = [EffJsonSaveFile (MissionServer.m_SessionFileName self) w']).
Proof.
  intros Hname. split; [reflexivity|]. split.
  - unfold MissionServer.OnMissionFinish. simpl snd.
    rewrite (SaveHeatmapData_named self w Hname). reflexivity.
  - split; [reflexivity|].
    intros ts w' Hdue. simpl fst.
    destruct (OnUpdate_due ts self w' Hdue) as [_ Hwrite].
    rewrite Hwrite, (SaveHeatmapData_named self w' Hname). reflexivity.
Qed.

Lemma finish_flushes_once_witness :
  writes (snd (MissionServer.OnMissionFinish Sample.mission0 empty_world))
  = [EffJsonSaveFile (MissionServer.m_SessionFileName Sample.mission0)
       empty_world]
  /\ writes (snd (MissionServer.OnUpdate (Float.of_int 120)
                    (fst (MissionServer.OnMissionFinish Sample.mission0
                            empty_world)) empty_world))
     = [EffJsonSaveFile (MissionServer.m_SessionFileName Sample.mission0)
          empty_world].
Proof.
  destruct (finish_flushes_once Sample.mission0 empty_world)
    as (_ & Hflush & _ & Hlater).
  - vm_compute. discriminate.
  - split; [exact Hflush|].
    apply (Hlater (Float.of_int 120) empty_world). vm_compute. reflexivity.
Defined.

(** C2, as the claim states it, fails: after [OnMissionFinish] a tick of
    120 seconds is not a no-op, it writes the session file again. *)
Lemma finalized_is_noop_fails :
  ~ finalized_is_noop Sample.mission0 empty_world.
Proof.
  intros Hnoop.
  specialize (Hnoop (Float.of_int 120) empty_world).
  apply (f_equal snd) in Hnoop. vm_compute in Hnoop. discriminate.
Qed.

(** ** Initialisation (MissionServer.OnInit) *)

Lemma OnInit_name (float_to_string : float -> string) (fs : FileSystem)
    (year month day hour minute sec ms : Z) (self : MissionServer.t) :
  MissionServer.m_SessionFileName
    (fst (MissionServer.OnInit float_to_string fs
            (game_at (year, month, day, hour, minute, sec) ms) self))
  = MissionServer.HEATMAP_PROFILE_FOLDER +:+ "/session_"
    +:+ Int.to_string year +:+ "-" +:+ Int.to_string month +:+ "-"
    +:+ Int.to_string day +:+ "_" +:+ Int.to_string hour +:+ "-"
    +:+ Int.to_string minute +:+ "-" +:+ Int.to_string (Z.rem ms 60)
    +:+ "_Heatmap.json".
Proof. reflexivity. Qed.

Lemma OnInit_named (float_to_string : float -> string) (fs : FileSystem)
    (g : Game) (self : MissionServer.t) :
  MissionServer.m_SessionFileName
    (fst (MissionServer.OnInit float_to_string fs g self)) <> "".
Proof.
  unfold MissionServer.OnInit.
  destruct (GetDate g) as [[[[year month] day] hour] minute].
  cbn [fst MissionServer.m_SessionFileName].
  unfold MissionServer.HEATMAP_PROFILE_FOLDER. cbn [String.append].
  discriminate.
Qed.

(** C4, as the code has it: the session file name is assigned by [OnInit]
    only and no tick or finalization changes it; it is
    [{folder}/session_{y}-{m}-{d}_{h}-{min}-{s}_Heatmap.json] with every
    component in plain decimal, where [s] is the elapsed simulation time in
    milliseconds modulo 60 and the calendar second plays no part; a session
    that starts on 2024-03-05 at 14:07 gets
    [session_2024-3-5_14-7-33_Heatmap.json] whenever that remainder is 33. *)
Theorem session_path_format (float_to_string : float -> string)
    (fs : FileSystem) (year month day hour minute sec ms : Z)
    (self : MissionServer.t) (evs : list mission_event) :
  let g := game_at (year, month, day, hour, minute, sec) ms in
  let self1 := fst (MissionServer.OnInit float_to_string fs g self) in
  MissionServer.m_SessionFileName self1
  = MissionServer.HEATMAP_PROFILE_FOLDER +:+ "/session_"
    +:+ Int.to_string year +:+ "-" +:+ Int.to_string month +:+ "-"
    +:+ Int.to_string day +:+ "_" +:+ Int.to_string hour +:+ "-"
    +:+ Int.to_string minute +:+ "-" +:+ Int.to_string (Z.rem ms 60)
    +:+ "_Heatmap.json"
  /\ MissionServer.m_SessionFileName (fst (mission_run self1 evs))
     = MissionServer.m_SessionFileName self1
  /\ (forall sec', session_path float_to_string fs
                     (game_at (year, month, day, hour, minute, sec') ms)
                   = MissionServer.m_SessionFileName self1)
  /\ ((year, month, day, hour, minute) = (2024, 3, 5, 14, 7)%Z ->
      Z.rem ms 60 = 33%Z ->
      MissionServer.m_SessionFileName self1
      = "$profile:Heatmap/session_2024-3-5_14-7-33_Heatmap.json").
Proof.
  intros g self1. split; [apply OnInit_name|].
  split; [apply mission_run_name|].
  split; [reflexivity|].
  intros Hdate Hrem. injection Hdate as -> -> -> -> ->.
  unfold self1, g. rewrite OnInit_name, Hrem. reflexivity.
Qed.

Lemma session_path_format_witness :
  MissionServer.m_SessionFileName
    (fst (MissionServer.OnInit Sample.float_to_string Sample.good_fs
            (game_at (2024, 3, 5, 14, 7, 12)%Z 4533) MissionServer.new))
  = "$profile:Heatmap/session_2024-3-5_14-7-33_Heatmap.json".
Proof.
  destruct (session_path_format Sample.float_to_string Sample.good_fs
              2024 3 5 14 7 12 4533 MissionServer.new [])
    as (_ & _ & _ & Hscenario).
  apply Hscenario; reflexivity.
Defined.

(** C4, as the claim states it, fails: a session that starts at calendar time
    2024-03-05 14:07:33 with five seconds of simulation time elapsed is named
    [..._14-7-20_Heatmap.json], since 5000 modulo 60 is 20. *)
Lemma session_path_second_is_not_calendar :
  session_path Sample.float_to_string Sample.good_fs
    (game_at (2024, 3, 5, 14, 7, 33)%Z 5000)
  = "$profile:Heatmap/session_2024-3-5_14-7-20_Heatmap.json"
  /\ session_path Sample.float_to_string Sample.good_fs
       (game_at (2024, 3, 5, 14, 7, 33)%Z 5000)
     <> "$profile:Heatmap/session_2024-3-5_14-7-33_Heatmap.json".
Proof. split; [reflexivity | vm_compute; discriminate]. Qed.

(** The agent's hooks never read the mission: whatever the mission is and
    does, the agent and the world end as if only the agent's hooks had run. *)
Lemma session_agent_share (g_Game : DayZGame) (evs : list session_event)
    (mission : MissionServer.t) (st : agent_state) :
  snd (fst (session_run g_Game (mission, st) evs))
  = agent_run g_Game st (agent_events evs).
Proof.
  revert mission st. induction evs as [|ev evs IH]; intros mission st.
  - reflexivity.
  - destruct ev as [ev' | ts | ]; simpl.
    + specialize (IH mission (agent_step g_Game st ev')).
      destruct (session_run g_Game (mission, agent_step g_Game st ev') evs).
      exact IH.
    + destruct (MissionServer.OnUpdate ts mission (snd st)) as [mission' out].
      specialize (IH mission' st).
      destruct (session_run g_Game (mission', st) evs). exact IH.
    + specialize (IH mission st).
      destruct (session_run g_Game (mission, st) evs). exact IH.
Qed.

(** C5, as the code has it: when the session folder is missing and cannot be
    created, [OnInit] does exactly what it does when the creation succeeds
    (the value [MakeDirectory] returns is dropped and no warning is printed);
    the session file name is set all the same and persistence goes on: after
    any run of ticks and finalizations, every further flush, from a due tick
    or from a finalization, still attempts the write to that same path;
    sampling and aggregation go on as they would without the mission. *)
Theorem OnInit_ignores_MakeDirectory (float_to_string : float -> string)
    (fs fs' : FileSystem) (g : Game) (self : MissionServer.t) :
  FileExist fs MissionServer.HEATMAP_PROFILE_FOLDER = false ->
  MakeDirectory fs MissionServer.HEATMAP_PROFILE_FOLDER = false ->
  FileExist fs' MissionServer.HEATMAP_PROFILE_FOLDER = false ->
  let self1 := fst (MissionServer.OnInit float_to_string fs g self) in
  MissionServer.OnInit float_to_string fs g self
  = MissionServer.OnInit float_to_string fs' g self
  /\ MissionServer.m_SessionFileName self1 <> ""
  /\ (forall evs timeslice w,
        Float.ge
          (Float.add
             (MissionServer.m_AutosaveTimer (fst (mission_run self1 evs)))
             timeslice)
          MissionServer.AUTOSAVE_INTERVAL = true ->
        writes (snd (mission_run self1 (evs ++ [EvUpdate timeslice w])))
        = writes (snd (mission_run self1 evs))
          ++ [EffJsonSaveFile (MissionServer.m_SessionFileName self1) w])
  /\ (forall evs w,
        writes (snd (mission_run self1 (evs ++ [EvMissionFinish w])))
        = writes (snd (mission_run self1 evs))
          ++ [EffJsonSaveFile (MissionServer.m_SessionFileName self1) w])
  /\ (forall g_Game st evs,
        snd (fst (session_run g_Game (self1, st) evs))
        = agent_run g_Game st (agent_events evs)).
Proof.
  intros Hmissing _ Hmissing' self1.
  pose proof (OnInit_named float_to_string fs g self) as Hname.
  fold self1 in Hname.
  assert (Hlater : forall evs,
             MissionServer.m_SessionFileName (fst (mission_run self1 evs))
             <> "")
    by (intros evs; rewrite mission_run_name; exact Hname).
  split; [|split; [exact Hname|split; [|split]]].
  - unfold MissionServer.OnInit. rewrite Hmissing, Hmissing'. reflexivity.
  - intros evs ts w Hdue.
    rewrite mission_run_app, mission_run_cons. cbn [snd fst mission_run].
    rewrite app_nil_r, writes_app. f_equal. simpl mission_step.
    destruct (OnUpdate_due ts (fst (mission_run self1 evs)) w Hdue)
      as [_ Hwrite].
    rewrite Hwrite, (SaveHeatmapData_named _ w (Hlater evs)).
    rewrite mission_run_name. reflexivity.
  - intros evs w.
    rewrite mission_run_app, mission_run_cons. cbn [snd fst mission_run].
    rewrite app_nil_r, writes_app. f_equal. simpl mission_step.
    unfold MissionServer.OnMissionFinish. simpl snd.
    rewrite (SaveHeatmapData_named _ w (Hlater evs)).
    rewrite mission_run_name. reflexivity.
  - intros g_Game st evs. apply session_agent_share.
Qed.

Lemma OnInit_ignores_MakeDirectory_witness :
  MissionServer.OnInit Sample.float_to_string Sample.broken_fs
    (Sample.server 33) MissionServer.new
  = MissionServer.OnInit Sample.float_to_string Sample.good_fs
      (Sample.server 33) MissionServer.new
  /\ writes (snd (mission_run (Sample.mission_on Sample.broken_fs)
                    ([EvUpdate (Float.of_int 120) empty_world;
                      EvMissionFinish empty_world]
                     ++ [EvUpdate (Float.of_int 120) empty_world])))
     = writes (snd (mission_run (Sample.mission_on Sample.broken_fs)
                      [EvUpdate (Float.of_int 120) empty_world;
                       EvMissionFinish empty_world]))
       ++ [EffJsonSaveFile
             "$profile:Heatmap/session_2024-3-5_14-7-33_Heatmap.json"
             empty_world].
Proof.
  destruct (OnInit_ignores_MakeDirectory Sample.float_to_string
              Sample.broken_fs Sample.good_fs (Sample.server 33)
              MissionServer.new) as (Hsame & _ & Hupdate & _ & _);
    try reflexivity.
  split; [exact Hsame|].
  apply (Hupdate [EvUpdate (Float.of_int 120) empty_world;
                  EvMissionFinish empty_world]
           (Float.of_int 120) empty_world).
  vm_compute. reflexivity.
Defined.

(** C5, as the claim states it, fails: with a file system that refuses to
    create the folder, the mission still attempts a write at the first due
    tick. *)
Lemma persistence_not_disabled :
  FileExist Sample.broken_fs MissionServer.HEATMAP_PROFILE_FOLDER = false
  /\ MakeDirectory Sample.broken_fs MissionServer.HEATMAP_PROFILE_FOLDER = false
  /\ ~ persistence_disabled
         (fst (MissionServer.OnInit Sample.float_to_string Sample.broken_fs
                 (Sample.server 33) MissionServer.new)).
Proof.
  split; [reflexivity|]. split; [reflexivity|].
  intros Hoff.
  specialize (Hoff [EvUpdate (Float.of_int 120) empty_world]).
  vm_compute in Hoff. discriminate.
Qed.

(** ** Worked examples *)

(** Adding one second to [float.MAX] rounds back to [float.MAX]. *)
Example MAX_absorbs_a_second :
  Float.add Float.MAX (Float.of_int 1) = Float.MAX.
Proof. reflexivity. Qed.

(** A fresh agent samples on its first eligible tick, then waits for the
    normal period on foot (1 + 4 + 5 = 10 s). *)
Example first_tick_samples :
  map (fun pre_tk => fired_at Sample.g_Game Sample.agent0 (fst pre_tk) (snd pre_tk))
    [([], Sample.tick_of 1 1000 Sample.on_foot);
     ([Sample.tick_of 1 1000 Sample.on_foot],
      Sample.tick_of 1 2000 Sample.on_foot);
     ([Sample.tick_of 1 1000 Sample.on_foot;
       Sample.tick_of 1 2000 Sample.on_foot],
      Sample.tick_of 4 6000 Sample.on_foot);
     ([Sample.tick_of 1 1000 Sample.on_foot;
       Sample.tick_of 1 2000 Sample.on_foot;
       Sample.tick_of 4 6000 Sample.on_foot],
      Sample.tick_of 5 11000 Sample.on_foot)]
  = [true; false; false; true].
Proof. vm_compute. reflexivity. Qed.

(** One accumulator serves both periods: a second on foot and a second in a
    vehicle reach the vehicle period of 2 s. *)
Example shared_accumulator :
  fired_at Sample.g_Game Sample.agent0
    [Sample.tick_of 1 1000 Sample.on_foot; Sample.tick_of 1 2000 Sample.on_foot]
    (Sample.tick_of 1 3000 Sample.driving) = true.
Proof. vm_compute. reflexivity. Qed.

(** The waypoint carries the clock in whole seconds in its middle component. *)
Example waypoint_of_clock :
  eAIBase.GetWaypoint (Sample.server 65999) Sample.dead
  = {| vec0 := Float.of_int 100; vec1 := Float.of_int 65;
       vec2 := Float.of_int 200 |}.
Proof. vm_compute. reflexivity. Qed.

(** The autosave timer of the scenario: 30, 60, 90, then back to 0. *)
Example autosave_timer_trace :
  map (fun n => MissionServer.m_AutosaveTimer
                  (fst (mission_run Sample.mission0
                          (updates (repeat (Sample.slice 30) n)))))
    [1; 2; 3; 4]
  = [Float.of_int 30; Float.of_int 60; Float.of_int 90; Float.of_int 0].
Proof. vm_compute. reflexivity. Qed.

(** What [OnInit] does when the folder is missing. *)
Example OnInit_effects :
  snd (MissionServer.OnInit Sample.float_to_string Sample.broken_fs
         (Sample.server 33) MissionServer.new)
  = [EffMakeDirectory "$profile:Heatmap";
     EffPrint "[Heatmap] Initialized - Session file: $profile:Heatmap/session_2024-3-5_14-7-33_Heatmap.json";
     EffPrint "[Heatmap] Autosaving every 120 seconds"].
Proof. reflexivity. Qed.

(** ** Selection (eAIBase.OnSelectPlayer) *)

(** X1: on a dedicated server [OnSelectPlayer] gives the agent a fresh, empty
    trajectory at an address no array had before, registers exactly that
    address at the end of the aggregate's list, keeps the accumulator, and
    leaves every existing array and the other collections alone; elsewhere
    it does nothing. *)
Theorem OnSelectPlayer_registers (g : Game) (self : eAIBase.t) (w : World) :
  (IsDedicatedServer g = true ->
   let st' := eAIBase.OnSelectPlayer g (self, w) in
   let a := length (heap w) in
   heap w !! a = None
   /\ eAIBase.m_AIWayPoints (fst st') = Some a
   /\ eAIBase.m_HeatmapTime (fst st') = eAIBase.m_HeatmapTime self
   /\ heap (snd st') !! a = Some []
   /\ registered (snd st') = registered w ++ [a]
   /\ (forall b tr, heap w !! b = Some tr -> heap (snd st') !! b = Some tr)
   /\ HeatmapData.m_AIDeathPoints (CURRENT_HEATMAP (snd st'))
      = HeatmapData.m_AIDeathPoints (CURRENT_HEATMAP w)
   /\ HeatmapData.m_ZombiePoints (CURRENT_HEATMAP (snd st'))
      = HeatmapData.m_ZombiePoints (CURRENT_HEATMAP w))
  /\ (IsDedicatedServer g = false ->
      eAIBase.OnSelectPlayer g (self, w) = (self, w)).
Proof.
  split; intros Hded; unfold eAIBase.OnSelectPlayer; rewrite Hded;
    [|reflexivity].
  cbn [fst snd heap heap_new CURRENT_HEATMAP eAIBase.m_AIWayPoints
       eAIBase.m_HeatmapTime registered HeatmapData.m_AIWayPoints
       HeatmapData.m_AIDeathPoints HeatmapData.m_ZombiePoints].
  repeat split.
  - apply lookup_ge_None_2. lia.
  - rewrite lookup_app_r by lia. rewrite Nat.sub_diag. reflexivity.
  - intros b tr Hb. apply lookup_app_l_Some, Hb.
Qed.

Lemma OnSelectPlayer_registers_witness :
  eAIBase.m_AIWayPoints
    (fst (eAIBase.OnSelectPlayer (Sample.server 9000) Sample.agent0)) = Some 1
  /\ registered (snd (eAIBase.OnSelectPlayer (Sample.server 9000) Sample.agent0))
     = [0; 1]
  /\ eAIBase.OnSelectPlayer
       {| IsDedicatedServer := false; GetTime := 0;
          GetDate := (2024, 3, 5, 14, 7)%Z |} Sample.stray
     = Sample.stray.
Proof.
  split; [|split].
  - destruct (OnSelectPlayer_registers (Sample.server 9000)
                (fst Sample.agent0) (snd Sample.agent0)) as [H _].
    destruct (H eq_refl) as (_ & Href & _). exact Href.
  - destruct (OnSelectPlayer_registers (Sample.server 9000)
                (fst Sample.agent0) (snd Sample.agent0)) as [H _].
    destruct (H eq_refl) as (_ & _ & _ & _ & Hreg & _). exact Hreg.
  - destruct (OnSelectPlayer_registers
                {| IsDedicatedServer := false; GetTime := 0;
                   GetDate := (2024, 3, 5, 14, 7)%Z |}
                (fst Sample.stray) (snd Sample.stray)) as [_ H].
    exact (H eq_refl).
Defined.

(** ** What the hooks keep *)

(** A tick leaves the aggregate object, the number of arrays, the agent's
    reference and every array but the agent's own as they were. *)
Lemma tick_frame (g_Game : DayZGame) (st : agent_state) (tk : Tick) :
  CURRENT_HEATMAP (snd (tick g_Game st tk)) = CURRENT_HEATMAP (snd st)
  /\ length (heap (snd (tick g_Game st tk))) = length (heap (snd st))
  /\ eAIBase.m_AIWayPoints (fst (tick g_Game st tk))
     = eAIBase.m_AIWayPoints (fst st)
  /\ (forall b, eAIBase.m_AIWayPoints (fst st) <> Some b ->
      heap (snd (tick g_Game st tk)) !! b = heap (snd st) !! b).
Proof.
  destruct st as [self w]. unfold tick, eAIBase.OnScheduledTick.
  destruct (eAIBase.m_AIWayPoints self) as [a|] eqn:Ha;
    [|cbn [fst snd]; rewrite Ha; auto].
  destruct (negb (IsPlayerSelected (entity tk)) || negb (IsAlive (entity tk)));
    [cbn [fst snd]; rewrite Ha; auto|].
  cbv zeta.
  destruct ((Float.ge _ _ && _) || Float.ge _ _);
    cbn [fst snd heap CURRENT_HEATMAP eAIBase.m_AIWayPoints];
    rewrite Ha; [|auto].
  rewrite length_heap_Insert. repeat split.
  intros b Hb. unfold heap_Insert. apply list_lookup_alter_ne. congruence.
Qed.

(** X4: throttled sampling writes to the agent's own trajectory and to
    nothing else. *)
Theorem ticks_touch_own_trajectory_only (g_Game : DayZGame) (st : agent_state)
    (tks : list Tick) :
  CURRENT_HEATMAP (snd (ticks g_Game st tks)) = CURRENT_HEATMAP (snd st)
  /\ length (heap (snd (ticks g_Game st tks))) = length (heap (snd st))
  /\ eAIBase.m_AIWayPoints (fst (ticks g_Game st tks))
     = eAIBase.m_AIWayPoints (fst st)
  /\ (forall b, eAIBase.m_AIWayPoints (fst st) <> Some b ->
      heap (snd (ticks g_Game st tks)) !! b = heap (snd st) !! b).
Proof.
  revert st. induction tks as [|tk tks IH]; intros st.
  - repeat split.
  - simpl. destruct (IH (tick g_Game st tk)) as (Hc & Hl & Hr & Hb).
    destruct (tick_frame g_Game st tk) as (Hc1 & Hl1 & Hr1 & Hb1).
    rewrite Hc, Hl, Hr, Hc1, Hl1, Hr1. repeat split.
    intros b Hne. rewrite Hb by (rewrite Hr1; exact Hne). apply Hb1, Hne.
Qed.

Lemma ticks_touch_own_trajectory_only_witness :
  heap (snd (ticks Sample.g_Game
               (fst Sample.agent0, snd Sample.zombie1)
               [Sample.tick_of 1 1000 Sample.on_foot;
                Sample.tick_of 12 13000 Sample.driving])) !! 1
  = heap (snd Sample.zombie1) !! 1.
Proof.
  destruct (ticks_touch_own_trajectory_only Sample.g_Game
              (fst Sample.agent0, snd Sample.zombie1)
              [Sample.tick_of 1 1000 Sample.on_foot;
               Sample.tick_of 12 13000 Sample.driving]) as (_ & _ & _ & H).
  apply H. vm_compute. discriminate.
Defined.

Lemma agent_step_inv (g_Game : DayZGame) (st : agent_state) (ev : agent_event) :
  agent_inv st -> agent_inv (agent_step g_Game st ev).
Proof.
  intros [[Hval Hnd] Hreg]. destruct ev as [g | tk | g e]; simpl.
  - destruct st as [self w]. unfold eAIBase.OnSelectPlayer.
    destruct (IsDedicatedServer g); [|split; [split|]; assumption].
    unfold agent_inv, world_wf, registered in *.
    cbn [fst snd heap heap_new CURRENT_HEATMAP eAIBase.m_AIWayPoints
         HeatmapData.m_AIWayPoints] in *.
    split; [split|].
    + apply Forall_app. split.
      * eapply Forall_impl; [exact Hval|]. intros a Ha. simpl in Ha.
        rewrite length_app. simpl. lia.
      * constructor; [|constructor]. rewrite length_app. simpl. lia.
    + apply NoDup_app. split; [exact Hnd|]. split.
      * intros x Hx Hx'. apply list_elem_of_singleton in Hx'. subst x.
        rewrite Forall_forall in Hval. specialize (Hval _ Hx). simpl in Hval.
        lia.
      * apply NoDup_singleton.
    + intros a Ha. injection Ha as <-. apply elem_of_app. right.
      apply list_elem_of_singleton. reflexivity.
  - destruct (tick_frame g_Game st tk) as (Hc & Hl & Hr & _).
    unfold agent_inv, world_wf, registered in *. rewrite Hc, Hl, Hr.
    split; [split|]; assumption.
  - destruct st as [self w]. unfold eAIBase.EEKilled.
    destruct (eAIBase.m_AIWayPoints self) as [a|] eqn:Ha;
      [|split; [split|]; assumption].
    unfold agent_inv, world_wf, registered in *.
    cbn [fst snd heap CURRENT_HEATMAP HeatmapData.m_AIWayPoints] in *.
    rewrite length_heap_Insert. split; [split|]; assumption.
Qed.

(** X2: from a well-formed world, whatever hooks of the agent run and in
    whatever order, every registered trajectory exists, none is registered
    twice, and the agent's own trajectory exists and is registered: what the
    agent samples is always part of what will be saved. *)
Theorem agent_run_keeps_registration (g_Game : DayZGame) (st : agent_state)
    (evs : list agent_event) :
  agent_inv st ->
  agent_inv (agent_run g_Game st evs)
  /\ (forall a,
        eAIBase.m_AIWayPoints (fst (agent_run g_Game st evs)) = Some a ->
        tracked (agent_run g_Game st evs) a).
Proof.
  intros Hinv.
  assert (Hfin : agent_inv (agent_run g_Game st evs)).
  { revert st Hinv. induction evs as [|ev evs IH]; intros st Hinv;
      [exact Hinv|].
    simpl. apply IH, agent_step_inv, Hinv. }
  split; [exact Hfin|].
  intros a Ha. split; [exact Ha|].
  destruct Hfin as [[Hval _] Hreg]. rewrite Forall_forall in Hval.
  exact (Hval a (Hreg a Ha)).
Qed.

Lemma agent_run_keeps_registration_witness :
  agent_inv
    (agent_run Sample.g_Game Sample.stray
       [EvScheduledTick (Sample.tick_of 1 1000 Sample.on_foot);
        EvSelectPlayer (Sample.server 2000);
        EvScheduledTick (Sample.tick_of 1 3000 Sample.on_foot);
        EvSelectPlayer (Sample.server 4000);
        EvKilled (Sample.server 5000) Sample.dead])
  /\ tracked
       (agent_run Sample.g_Game Sample.stray
          [EvScheduledTick (Sample.tick_of 1 1000 Sample.on_foot);
           EvSelectPlayer (Sample.server 2000);
           EvScheduledTick (Sample.tick_of 1 3000 Sample.on_foot);
           EvSelectPlayer (Sample.server 4000);
           EvKilled (Sample.server 5000) Sample.dead]) 1.
Proof.
  destruct (agent_run_keeps_registration Sample.g_Game Sample.stray
              [EvScheduledTick (Sample.tick_of 1 1000 Sample.on_foot);
               EvSelectPlayer (Sample.server 2000);
               EvScheduledTick (Sample.tick_of 1 3000 Sample.on_foot);
               EvSelectPlayer (Sample.server 4000);
               EvKilled (Sample.server 5000) Sample.dead]) as [Hinv Htr].
  - split; [split; [constructor | apply NoDup_nil_2]|].
    intros a Ha. discriminate Ha.
  - split; [exact Hinv|]. apply Htr. reflexivity.
Defined.

(** ** Append-only growth *)

Lemma world_le_refl (w : World) : world_le w w.
Proof.
  split; [|repeat split; reflexivity].
  intros a tr Ha. exists tr. split; [exact Ha | reflexivity].
Qed.

Lemma world_le_trans (w1 w2 w3 : World) :
  world_le w1 w2 -> world_le w2 w3 -> world_le w1 w3.
Proof.
  intros (Hh & Hr & Hd & Hz) (Hh' & Hr' & Hd' & Hz').
  split; [|repeat split; etransitivity; eassumption].
  intros a tr Ha. destruct (Hh a tr Ha) as (tr' & Ha' & Hp).
  destruct (Hh' a tr' Ha') as (tr'' & Ha'' & Hp').
  exists tr''. split; [exact Ha''|]. etransitivity; eassumption.
Qed.

Lemma heap_Insert_le (h : list (list vector)) (a b : ref) (v : vector)
    (tr : list vector) :
  h !! b = Some tr ->
  exists tr', heap_Insert a v h !! b = Some tr' /\ tr `prefix_of` tr'.
Proof.
  intros Hb. unfold heap_Insert. destruct (decide (a = b)) as [->|Hne].
  - exists (tr ++ [v]). rewrite list_lookup_alter_eq, Hb. split; [reflexivity|].
    exists [v]. reflexivity.
  - exists tr. rewrite list_lookup_alter_ne by exact Hne.
    split; [exact Hb | reflexivity].
Qed.

Lemma agent_step_le (g_Game : DayZGame) (st : agent_state) (ev : agent_event) :
  world_le (snd st) (snd (agent_step g_Game st ev)).
Proof.
  destruct st as [self w]. destruct ev as [g | tk | g e]; simpl.
  - unfold eAIBase.OnSelectPlayer.
    destruct (IsDedicatedServer g); [|apply world_le_refl].
    cbn [snd heap_new]. split; [|repeat split; cbn; try reflexivity].
    + intros a tr Ha. exists tr. cbn [heap].
      split; [apply lookup_app_l_Some, Ha | reflexivity].
    + eexists. reflexivity.
  - unfold tick, eAIBase.OnScheduledTick.
    destruct (eAIBase.m_AIWayPoints self) as [a|]; [|apply world_le_refl].
    destruct (negb _ || negb _); [apply world_le_refl|]. cbv zeta.
    destruct ((Float.ge _ _ && _) || Float.ge _ _); [|apply world_le_refl].
    cbn [snd]. split; [|repeat split; reflexivity].
    intros b tr Hb. cbn [heap]. apply heap_Insert_le, Hb.
  - unfold eAIBase.EEKilled.
    destruct (eAIBase.m_AIWayPoints self) as [a|]; [|apply world_le_refl].
    cbn [snd]. split; [|repeat split; cbn; try reflexivity].
    + intros b tr Hb. cbn [heap]. apply heap_Insert_le, Hb.
    + eexists. reflexivity.
Qed.

Lemma agent_run_le (g_Game : DayZGame) (evs : list agent_event)
    (st : agent_state) :
  world_le (snd st) (snd (agent_run g_Game st evs)).
Proof.
  revert st. induction evs as [|ev evs IH]; intros st; [apply world_le_refl|].
  simpl. eapply world_le_trans; [apply agent_step_le | apply IH].
Qed.

(** X3: no hook of the agent ever removes or rewrites what was recorded:
    after any run every array and every collection of the world still starts
    with its earlier content, and every trajectory extends what it was. *)
Theorem agent_run_append_only (g_Game : DayZGame) (st : agent_state)
    (evs : list agent_event) :
  world_le (snd st) (snd (agent_run g_Game st evs))
  /\ forall a, trajectory (snd st) a
               `prefix_of` trajectory (snd (agent_run g_Game st evs)) a.
Proof.
  pose proof (agent_run_le g_Game evs st) as Hle.
  split; [exact Hle|].
  intros a. unfold trajectory. destruct (heap (snd st) !! a) as [tr|] eqn:Ha.
  - destruct Hle as [Hh _]. destruct (Hh a tr Ha) as (tr' & Ha' & Hp).
    rewrite Ha'. exact Hp.
  - apply prefix_nil.
Qed.

(** ** What a run of ticks records *)

Lemma tick_captured (g_Game : DayZGame) (st : agent_state) (a : ref)
    (tk : Tick) :
  tracked st a ->
  trajectory (snd (tick g_Game st tk)) a
  = trajectory (snd st) a
    ++ (if fired st (tick g_Game st tk)
        then [eAIBase.GetWaypoint (game tk) (entity tk)] else []).
Proof.
  intros Hst. destruct (eligible tk) eqn:He.
  - rewrite (fired_tick g_Game st a tk Hst He).
    destruct st as [self w]. destruct Hst as [Ha Hlt]. simpl in Ha, Hlt.
    rewrite (tick_eligible g_Game self w a tk Ha He). cbv zeta.
    destruct (reached _ _ _); cbn [snd fst].
    + destruct w as [h c]. apply trajectory_Insert_eq, Hlt.
    + rewrite app_nil_r. reflexivity.
  - rewrite (tick_not_eligible g_Game st tk He).
    replace (fired st st) with false; [rewrite app_nil_r; reflexivity|].
    unfold fired. destruct (eAIBase.m_AIWayPoints (fst st)); [|reflexivity].
    symmetry. apply Nat.ltb_irrefl.
Qed.

(** X5: over any run of ticks, eligible or not, the trajectory of a tracked
    agent grows by exactly the waypoints of the ticks that fired, each taken
    from the engine's answers of its own tick, in tick order; so it grows by
    at most one element per tick. *)
Theorem trajectory_is_captured (g_Game : DayZGame) (st : agent_state) (a : ref)
    (tks : list Tick) :
  tracked st a ->
  trajectory (snd (ticks g_Game st tks)) a
  = trajectory (snd st) a ++ captured g_Game st tks
  /\ length (captured g_Game st tks) <= length tks.
Proof.
  revert st. induction tks as [|tk tks IH]; intros st Hst.
  - simpl. rewrite app_nil_r. split; [reflexivity | lia].
  - destruct (IH (tick g_Game st tk) (tick_tracked g_Game st a tk Hst))
      as [Htr Hlen].
    simpl. split.
    + change (fold_left (tick g_Game) tks (tick g_Game st tk))
        with (ticks g_Game (tick g_Game st tk) tks).
      rewrite Htr, (tick_captured g_Game st a tk Hst), <- app_assoc.
      reflexivity.
    + rewrite length_app. destruct (fired st (tick g_Game st tk)); simpl; lia.
Qed.

Lemma trajectory_is_captured_witness :
  trajectory
    (snd (ticks Sample.g_Game Sample.agent0
            [Sample.tick_of 1 1000 Sample.on_foot;
             Sample.tick_of 50 51000 Sample.unselected;
             Sample.tick_of 4 55000 Sample.on_foot;
             Sample.tick_of 6 61000 Sample.on_foot])) 0
  = [eAIBase.GetWaypoint (Sample.server 1000) Sample.on_foot;
     eAIBase.GetWaypoint (Sample.server 61000) Sample.on_foot].
Proof.
  destruct (trajectory_is_captured Sample.g_Game Sample.agent0 0
              [Sample.tick_of 1 1000 Sample.on_foot;
               Sample.tick_of 50 51000 Sample.unselected;
               Sample.tick_of 4 55000 Sample.on_foot;
               Sample.tick_of 6 61000 Sample.on_foot]) as [Htr _].
  - split; [reflexivity | vm_compute; lia].
  - rewrite Htr. vm_compute. reflexivity.
Defined.

(** Comparisons of floats that are numbers. *)
Lemma float_ge_not_nan (a b : float) :
  Float.ge a b = true -> float_is_nan a = false.
Proof. destruct a, b; try reflexivity; discriminate. Qed.

Lemma float_lt_not_nan_r (a b : float) :
  float_lt a b = true -> float_is_nan b = false.
Proof. destruct a, b; try reflexivity; discriminate. Qed.

Lemma float_lt_nan_l (a b : float) :
  float_is_nan a = true -> float_lt a b = false.
Proof. destruct a; try discriminate. reflexivity. Qed.

Lemma float_ge_false_lt (a b : float) :
  float_is_nan a = false -> float_is_nan b = false ->
  Float.ge a b = false -> float_lt a b = true.
Proof.
  unfold Float.ge, float_lt, SFleb, SFltb, SFcompare.
  destruct a as [sa|sa| |sa ma ea], b as [sb|sb| |sb mb eb];
    try destruct sa; try destruct sb;
    intros Ha Hb H; try reflexivity; try discriminate.
  all: change (Pos.compare_cont Eq) with Pos.compare in *.
  all: destruct (Z.compare_spec ea eb), (Z.compare_spec eb ea);
    try lia; try reflexivity; try discriminate.
  all: destruct (Pos.compare_spec ma mb), (Pos.compare_spec mb ma);
    simpl in *; try lia; try reflexivity; try discriminate.
Qed.

(** X6: with a positive normal period, after every eligible tick of a
    tracked agent the accumulator is strictly below the normal period,
    whatever it held before (the initial [float.MAX] included), unless the
    incremented accumulator is not a number: then, and only then, the
    accumulator is not a number itself and is below nothing.  After a tick in
    a vehicle the same holds for a positive vehicle period. *)
Theorem accumulator_below_period (g_Game : DayZGame) (st : agent_state)
    (a : ref) (tk : Tick) :
  float_lt Float.zero (HEATMAP_TICK_TIME g_Game) = true ->
  tracked st a -> eligible tk = true ->
  float_lt (eAIBase.m_HeatmapTime (fst (tick g_Game st tk)))
    (HEATMAP_TICK_TIME g_Game)
  = negb (float_is_nan
            (Float.add (eAIBase.m_HeatmapTime (fst st)) (deltaTime tk)))
  /\ float_is_nan (eAIBase.m_HeatmapTime (fst (tick g_Game st tk)))
     = float_is_nan
         (Float.add (eAIBase.m_HeatmapTime (fst st)) (deltaTime tk))
  /\ (IsInVehicle (entity tk) = true ->
      float_lt Float.zero (HEATMAP_TICK_TIME_VEHICLE g_Game) = true ->
      float_lt (eAIBase.m_HeatmapTime (fst (tick g_Game st tk)))
        (HEATMAP_TICK_TIME_VEHICLE g_Game)
      = negb (float_is_nan
                (Float.add (eAIBase.m_HeatmapTime (fst st)) (deltaTime tk)))).
Proof.
  intros Hpos Hst He.
  rewrite (time_tick g_Game st a tk Hst He), (fired_tick g_Game st a tk Hst He).
  unfold reached.
  set (t := Float.add (eAIBase.m_HeatmapTime (fst st)) (deltaTime tk)).
  destruct (float_is_nan t) eqn:Hnan.
  - assert (Ht : t = S754_nan) by (destruct t; try discriminate; reflexivity).
    assert (Hg : forall x, Float.ge S754_nan x = false)
      by (intros x; destruct x; reflexivity).
    rewrite Ht, !Hg. simpl. repeat split.
  - destruct (Float.ge t (HEATMAP_TICK_TIME g_Game)) eqn:Hn.
    + rewrite orb_true_r. simpl. repeat split; [exact Hpos|].
      intros _ Hv. exact Hv.
    + rewrite orb_false_r.
      pose proof (float_ge_false_lt t _ Hnan (float_lt_not_nan_r _ _ Hpos) Hn)
        as Hlt.
      destruct (Float.ge t (HEATMAP_TICK_TIME_VEHICLE g_Game)
                && IsInVehicle (entity tk)) eqn:Hfire; simpl.
      * repeat split; [exact Hpos|]. intros _ Hv. exact Hv.
      * repeat split; [exact Hlt | exact Hnan|].
        intros Hveh Hv. rewrite Hveh, andb_true_r in Hfire.
        exact (float_ge_false_lt t _ Hnan (float_lt_not_nan_r _ _ Hv) Hfire).
Qed.

Lemma accumulator_below_period_witness :
  float_lt
    (eAIBase.m_HeatmapTime
       (fst (tick Sample.g_Game Sample.agent0
               (Sample.tick_of 1 1000 Sample.driving))))
    (Float.of_int 10)
  = negb (float_is_nan (Float.add Float.MAX (Float.of_int 1)))
  /\ float_lt
       (eAIBase.m_HeatmapTime
          (fst (tick Sample.g_Game Sample.agent0
                  (Sample.tick_of 1 1000 Sample.driving))))
       (Float.of_int 2)
     = negb (float_is_nan (Float.add Float.MAX (Float.of_int 1))).
Proof.
  destruct (accumulator_below_period Sample.g_Game Sample.agent0 0
              (Sample.tick_of 1 1000 Sample.driving)) as (Hn & _ & Hv).
  - vm_compute. reflexivity.
  - split; [reflexivity | vm_compute; lia].
  - reflexivity.
  - split; [exact Hn|]. apply Hv; [reflexivity | vm_compute; reflexivity].
Defined.

(** ** Re-selection *)

Lemma frozen_step (g_Game : DayZGame) (st : agent_state) (a : ref)
    (tr : list vector) (ev : agent_event) :
  heap (snd st) !! a = Some tr ->
  eAIBase.m_AIWayPoints (fst st) <> Some a ->
  heap (snd (agent_step g_Game st ev)) !! a = Some tr
  /\ eAIBase.m_AIWayPoints (fst (agent_step g_Game st ev)) <> Some a.
Proof.
  intros Htr Hne. destruct ev as [g | tk | g e]; simpl.
  - destruct st as [self w]. unfold eAIBase.OnSelectPlayer.
    destruct (IsDedicatedServer g); [|split; assumption].
    cbn [fst snd heap heap_new eAIBase.m_AIWayPoints] in *. split.
    + apply lookup_app_l_Some, Htr.
    + apply lookup_lt_Some in Htr. intros Heq. injection Heq as Heq. lia.
  - destruct (tick_frame g_Game st tk) as (_ & _ & Hr & Hb).
    rewrite Hr, (Hb a Hne). split; assumption.
  - destruct st as [self w]. unfold eAIBase.EEKilled.
    cbn [fst snd] in *.
    destruct (eAIBase.m_AIWayPoints self) as [b|] eqn:Hb;
      [|cbn [fst snd]; rewrite Hb; split; assumption].
    cbn [fst snd heap]. rewrite Hb. split; [|exact Hne].
    unfold heap_Insert. rewrite list_lookup_alter_ne by congruence.
    exact Htr.
Qed.

(** X7: selecting an agent again on a dedicated server starts a new
    trajectory; the earlier one stays registered in the aggregate and is
    never written again, whatever hooks of the agent run later, its death
    included. *)
Theorem reselect_freezes_old_trajectory (g_Game : DayZGame) (st : agent_state)
    (a : ref) (g : Game) (evs : list agent_event) :
  tracked st a ->
  IsDedicatedServer g = true ->
  let fin := agent_run g_Game (eAIBase.OnSelectPlayer g st) evs in
  trajectory (snd fin) a = trajectory (snd st) a
  /\ eAIBase.m_AIWayPoints (fst fin) <> Some a
  /\ (a ∈ registered (snd st) -> a ∈ registered (snd fin)).
Proof.
  intros [Ha Hlt] Hded fin.
  destruct (lookup_lt_is_Some_2 _ _ Hlt) as [tr Htr].
  assert (Hstart : heap (snd (eAIBase.OnSelectPlayer g st)) !! a = Some tr
                   /\ eAIBase.m_AIWayPoints (fst (eAIBase.OnSelectPlayer g st))
                      <> Some a).
  { destruct st as [self w]. unfold eAIBase.OnSelectPlayer. rewrite Hded.
    cbn [fst snd heap heap_new eAIBase.m_AIWayPoints] in *. split.
    - apply lookup_app_l_Some, Htr.
    - intros Heq. injection Heq as Heq. lia. }
  assert (Hfin : heap (snd fin) !! a = Some tr
                 /\ eAIBase.m_AIWayPoints (fst fin) <> Some a).
  { unfold fin. clear fin. revert Hstart.
    generalize (eAIBase.OnSelectPlayer g st) as s.
    induction evs as [|ev evs IH]; intros s [Hs Hn]; [split; assumption|].
    simpl. apply IH. apply frozen_step; assumption. }
  destruct Hfin as [Hheap Hne]. split; [|split; [exact Hne|]].
  - unfold trajectory. rewrite Hheap, Htr. reflexivity.
  - intros Hreg.
    pose proof (agent_run_le g_Game (EvSelectPlayer g :: evs) st)
      as (_ & [k Hk] & _).
    change (agent_run g_Game st (EvSelectPlayer g :: evs)) with fin in Hk.
    unfold registered. rewrite Hk. apply elem_of_app. left. exact Hreg.
Qed.

Lemma reselect_freezes_old_trajectory_witness :
  trajectory
    (snd (agent_run Sample.g_Game
            (eAIBase.OnSelectPlayer (Sample.server 9000) Sample.agent0)
            [EvScheduledTick (Sample.tick_of 1 10000 Sample.on_foot);
             EvKilled (Sample.server 11000) Sample.dead])) 0
  = trajectory (snd Sample.agent0) 0
  /\ 0 ∈ registered
       (snd (agent_run Sample.g_Game
               (eAIBase.OnSelectPlayer (Sample.server 9000) Sample.agent0)
               [EvScheduledTick (Sample.tick_of 1 10000 Sample.on_foot);
                EvKilled (Sample.server 11000) Sample.dead])).
Proof.
  destruct (reselect_freezes_old_trajectory Sample.g_Game Sample.agent0 0
              (Sample.server 9000)
              [EvScheduledTick (Sample.tick_of 1 10000 Sample.on_foot);
               EvKilled (Sample.server 11000) Sample.dead])
    as (Htr & _ & Hreg).
  - split; [reflexivity | vm_compute; lia].
  - reflexivity.
  - split; [exact Htr|]. apply Hreg. vm_compute. constructor.
Defined.

(** ** Not-a-number time steps *)

Lemma Float_add_nan_l (x : float) : Float.add S754_nan x = S754_nan.
Proof. reflexivity. Qed.

Lemma Float_add_nan_r (x : float) : Float.add x S754_nan = S754_nan.
Proof. destruct x; reflexivity. Qed.

Lemma Float_ge_nan (x : float) : Float.ge S754_nan x = false.
Proof. destruct x; reflexivity. Qed.

Lemma tick_nan (g_Game : DayZGame) (st : agent_state) (tk : Tick) :
  eAIBase.m_HeatmapTime (fst st) = S754_nan -> tick g_Game st tk = st.
Proof.
  destruct st as [[time r] w]. simpl. intros ->.
  unfold tick, eAIBase.OnScheduledTick. cbn [eAIBase.m_AIWayPoints].
  destruct r as [a|]; [|reflexivity].
  destruct (negb _ || negb _); [reflexivity|].
  cbn [eAIBase.m_HeatmapTime]. rewrite Float_add_nan_l. cbv zeta.
  rewrite !Float_ge_nan. reflexivity.
Qed.

(** X8: one eligible tick whose [deltaTime] is not a number ends the
    throttled sampling of a tracked agent for good: the accumulator becomes
    not-a-number and stays so, and no later tick, whatever its [deltaTime],
    changes the world. *)
Theorem NaN_deltaTime_silences (g_Game : DayZGame) (st : agent_state) (a : ref)
    (tk : Tick) (tks : list Tick) :
  eAIBase.m_AIWayPoints (fst st) = Some a ->
  eligible tk = true ->
  deltaTime tk = S754_nan ->
  snd (ticks g_Game st (tk :: tks)) = snd st
  /\ eAIBase.m_HeatmapTime (fst (ticks g_Game st (tk :: tks))) = S754_nan.
Proof.
  intros Ha He Hnan.
  assert (Hfirst : tick g_Game st tk
                   = ({| eAIBase.m_HeatmapTime := S754_nan;
                         eAIBase.m_AIWayPoints := Some a |}, snd st)).
  { destruct st as [self w]. simpl in Ha.
    rewrite (tick_eligible g_Game self w a tk Ha He). cbv zeta.
    rewrite Hnan, Float_add_nan_r. unfold reached.
    rewrite !Float_ge_nan. reflexivity. }
  assert (Hrest : forall l s, eAIBase.m_HeatmapTime (fst s) = S754_nan ->
                              ticks g_Game s l = s).
  { induction l as [|u l IH]; intros s Hs; [reflexivity|].
    simpl. rewrite (tick_nan g_Game s u Hs). apply IH, Hs. }
  simpl. rewrite Hfirst.
  change (fold_left (tick g_Game) tks ?s) with (ticks g_Game s tks).
  rewrite Hrest by reflexivity. split; reflexivity.
Qed.

Lemma NaN_deltaTime_silences_witness :
  snd (ticks Sample.g_Game Sample.agent0
         [{| deltaTime := S754_nan; game := Sample.server 1000;
             entity := Sample.on_foot |};
          Sample.tick_of 500 501000 Sample.on_foot;
          Sample.tick_of 500 1001000 Sample.driving])
  = snd Sample.agent0.
Proof.
  apply (NaN_deltaTime_silences Sample.g_Game Sample.agent0 0); reflexivity.
Defined.

(** ** Deaths of zombies (ZombieBase.EEKilled) *)

(** X9: [ZombieBase.EEKilled] has no guard: whatever the zombie's state, it
    appends one waypoint to the zombie's own array and the same waypoint to
    the aggregate's zombie points, prints one line, and leaves the agents'
    collections, the registered trajectories and every other array alone. *)
Theorem zombie_EEKilled_dual_write (vector_to_string : vector -> string)
    (g : Game) (e : Entity) (z : ZombieBase.t) (w : World) :
  let r := ZombieBase.EEKilled vector_to_string g e (z, w) in
  let w' := snd (fst r) in
  fst (fst r) = z
  /\ HeatmapData.m_ZombiePoints (CURRENT_HEATMAP w')
     = HeatmapData.m_ZombiePoints (CURRENT_HEATMAP w)
       ++ [ZombieBase.GetWaypoint g e]
  /\ (ZombieBase.m_WayPoints z < length (heap w) ->
      trajectory w' (ZombieBase.m_WayPoints z)
      = trajectory w (ZombieBase.m_WayPoints z) ++ [ZombieBase.GetWaypoint g e])
  /\ (forall b, b <> ZombieBase.m_WayPoints z -> heap w' !! b = heap w !! b)
  /\ HeatmapData.m_AIWayPoints (CURRENT_HEATMAP w')
     = HeatmapData.m_AIWayPoints (CURRENT_HEATMAP w)
  /\ HeatmapData.m_AIDeathPoints (CURRENT_HEATMAP w')
     = HeatmapData.m_AIDeathPoints (CURRENT_HEATMAP w)
  /\ length (heap w') = length (heap w)
  /\ length (snd r) = 1.
Proof.
  cbn [ZombieBase.EEKilled fst snd heap CURRENT_HEATMAP
       HeatmapData.m_ZombiePoints HeatmapData.m_AIWayPoints
       HeatmapData.m_AIDeathPoints].
  repeat split.
  - intros Hlt. destruct w as [h c]. apply trajectory_Insert_eq, Hlt.
  - intros b Hb. unfold heap_Insert. apply list_lookup_alter_ne. congruence.
  - apply length_heap_Insert.
Qed.

Lemma zombie_EEKilled_dual_write_witness :
  trajectory
    (snd (fst (ZombieBase.EEKilled Sample.vector_to_string (Sample.server 7500)
                 Sample.dead Sample.zombie1))) 1
  = [ZombieBase.GetWaypoint (Sample.server 7500) Sample.dead]
  /\ heap (snd (fst (ZombieBase.EEKilled Sample.vector_to_string
                       (Sample.server 7500) Sample.dead Sample.zombie1))) !! 0
     = heap (snd Sample.zombie1) !! 0.
Proof.
  destruct (zombie_EEKilled_dual_write Sample.vector_to_string
              (Sample.server 7500) Sample.dead (fst Sample.zombie1)
              (snd Sample.zombie1)) as (_ & _ & Hown & Hother & _).
  split.
  - apply Hown. vm_compute. lia.
  - apply Hother. vm_compute. discriminate.
Defined.

Lemma zombie_death_frame (vector_to_string : vector -> string) (w : World)
    (k : ZombieBase.t * Game * Entity) :
  HeatmapData.m_ZombiePoints (CURRENT_HEATMAP (zombie_death vector_to_string w k))
  = HeatmapData.m_ZombiePoints (CURRENT_HEATMAP w) ++ [zombie_waypoint k]
  /\ HeatmapData.m_AIWayPoints
       (CURRENT_HEATMAP (zombie_death vector_to_string w k))
     = HeatmapData.m_AIWayPoints (CURRENT_HEATMAP w)
  /\ HeatmapData.m_AIDeathPoints
       (CURRENT_HEATMAP (zombie_death vector_to_string w k))
     = HeatmapData.m_AIDeathPoints (CURRENT_HEATMAP w)
  /\ (forall b, b <> zombie_array k ->
      heap (zombie_death vector_to_string w k) !! b = heap w !! b).
Proof.
  destruct k as [[z g] e]. repeat split.
  intros b Hb. cbn. unfold heap_Insert. apply list_lookup_alter_ne.
  simpl in Hb. congruence.
Qed.

(** X10: the aggregate's zombie points are the log of the zombie deaths: after
    any number of deaths they are the earlier points followed by one
    waypoint per death, in the order of the deaths; the deaths never touch
    the agents' death points, the registered trajectories, or an array that
    no dying zombie owns. *)
Theorem zombie_points_log_deaths (vector_to_string : vector -> string)
    (w : World) (kills : list (ZombieBase.t * Game * Entity)) :
  let w' := zombie_deaths vector_to_string w kills in
  HeatmapData.m_ZombiePoints (CURRENT_HEATMAP w')
  = HeatmapData.m_ZombiePoints (CURRENT_HEATMAP w) ++ map zombie_waypoint kills
  /\ HeatmapData.m_AIWayPoints (CURRENT_HEATMAP w')
     = HeatmapData.m_AIWayPoints (CURRENT_HEATMAP w)
  /\ HeatmapData.m_AIDeathPoints (CURRENT_HEATMAP w')
     = HeatmapData.m_AIDeathPoints (CURRENT_HEATMAP w)
  /\ (forall b, Forall (fun k => b <> zombie_array k) kills ->
      heap w' !! b = heap w !! b).
Proof.
  revert w. induction kills as [|k kills IH]; intros w.
  - simpl. rewrite app_nil_r. repeat split.
  - destruct (IH (zombie_death vector_to_string w k)) as (Hz & Hr & Hd & Hb).
    destruct (zombie_death_frame vector_to_string w k)
      as (Hz1 & Hr1 & Hd1 & Hb1).
    cbn zeta in *. simpl.
    change (fold_left (zombie_death vector_to_string) kills ?x)
      with (zombie_deaths vector_to_string x kills).
    rewrite Hz, Hr, Hd, Hz1, Hr1, Hd1, <- app_assoc. repeat split.
    intros b Hall. inversion Hall as [|? ? Hk Hrest]; subst.
    rewrite (Hb b Hrest). apply Hb1, Hk.
Qed.

Lemma zombie_points_log_deaths_witness :
  heap (zombie_deaths Sample.vector_to_string (snd Sample.zombie2)
          [(fst Sample.zombie1, Sample.server 7500, Sample.dead);
           (fst Sample.zombie2, Sample.server 9900, Sample.dead)]) !! 0
  = heap (snd Sample.zombie2) !! 0.
Proof.
  destruct (zombie_points_log_deaths Sample.vector_to_string
              (snd Sample.zombie2)
              [(fst Sample.zombie1, Sample.server 7500, Sample.dead);
               (fst Sample.zombie2, Sample.server 9900, Sample.dead)])
    as (_ & _ & _ & H).
  apply H. repeat constructor; vm_compute; discriminate.
Defined.

(** ** Which hook writes which collection *)

Lemma agent_step_collections (g_Game : DayZGame) (st : agent_state)
    (ev : agent_event) :
  let st' := agent_step g_Game st ev in
  HeatmapData.m_ZombiePoints (CURRENT_HEATMAP (snd st'))
  = HeatmapData.m_ZombiePoints (CURRENT_HEATMAP (snd st))
  /\ length (HeatmapData.m_AIDeathPoints (CURRENT_HEATMAP (snd st')))
     <= length (HeatmapData.m_AIDeathPoints (CURRENT_HEATMAP (snd st)))
        + (if is_kill ev then 1 else 0)
  /\ length (registered (snd st'))
     = length (registered (snd st))
       + (if is_dedicated_select ev then 1 else 0)
  /\ length (heap (snd st'))
     = length (heap (snd st)) + (if is_dedicated_select ev then 1 else 0).
Proof.
  destruct ev as [g | tk | g e]; cbn zeta; simpl agent_step;
    cbn [is_kill is_dedicated_select].
  - destruct st as [self w]. unfold eAIBase.OnSelectPlayer, registered.
    destruct (IsDedicatedServer g);
      cbn [fst snd heap heap_new CURRENT_HEATMAP HeatmapData.m_ZombiePoints
           HeatmapData.m_AIDeathPoints HeatmapData.m_AIWayPoints];
      rewrite ?length_app; simpl; repeat split; lia.
  - destruct (tick_frame g_Game st tk) as (Hc & Hl & _ & _).
    unfold registered. rewrite Hc, Hl. repeat split; lia.
  - destruct st as [self w]. unfold eAIBase.EEKilled, registered.
    destruct (eAIBase.m_AIWayPoints self);
      cbn [fst snd heap CURRENT_HEATMAP HeatmapData.m_ZombiePoints
           HeatmapData.m_AIDeathPoints HeatmapData.m_AIWayPoints];
      rewrite ?length_app, ?length_heap_Insert; simpl; repeat split; lia.
Qed.

(** X11: the agent's hooks never touch the zombie points; the agents' death
    points grow by at most one per call of [EEKilled] and by nothing else;
    one trajectory is allocated and registered per selection on a dedicated
    server and none otherwise. *)
Theorem agent_run_collections (g_Game : DayZGame) (evs : list agent_event)
    (st : agent_state) :
  let fin := agent_run g_Game st evs in
  HeatmapData.m_ZombiePoints (CURRENT_HEATMAP (snd fin))
  = HeatmapData.m_ZombiePoints (CURRENT_HEATMAP (snd st))
  /\ length (HeatmapData.m_AIDeathPoints (CURRENT_HEATMAP (snd fin)))
     <= length (HeatmapData.m_AIDeathPoints (CURRENT_HEATMAP (snd st)))
        + length (List.filter is_kill evs)
  /\ length (registered (snd fin))
     = length (registered (snd st)) + length (List.filter is_dedicated_select evs)
  /\ length (heap (snd fin))
     = length (heap (snd st)) + length (List.filter is_dedicated_select evs).
Proof.
  revert st. induction evs as [|ev evs IH]; intros st.
  - simpl. repeat split; lia.
  - destruct (IH (agent_step g_Game st ev)) as (Hz & Hd & Hr & Hh).
    destruct (agent_step_collections g_Game st ev) as (Hz1 & Hd1 & Hr1 & Hh1).
    cbn zeta in *. simpl agent_run.
    change (fold_left (agent_step g_Game) evs ?x)
      with (agent_run g_Game x evs).
    rewrite Hz, Hz1, Hr, Hr1, Hh, Hh1. simpl List.filter.
    destruct (is_kill ev), (is_dedicated_select ev); simpl length;
      repeat split; lia.
Qed.

(** ** What a mission writes *)

Lemma saved_app (o1 o2 : list effect) : saved (o1 ++ o2) = saved o1 ++ saved o2.
Proof.
  induction o1 as [|x o1 IH]; [reflexivity|].
  destruct x; simpl; rewrite IH; reflexivity.
Qed.

Lemma mission_step_out (self : MissionServer.t) (ev : mission_event) :
  Forall (writes_to (MissionServer.m_SessionFileName self))
    (snd (mission_step self ev))
  /\ (saved (snd (mission_step self ev)) = []
      \/ saved (snd (mission_step self ev)) = [event_world ev]).
Proof.
  destruct ev as [ts w | w]; simpl.
  - unfold MissionServer.OnUpdate, MissionServer.SaveHeatmapData.
    destruct (Float.ge _ _); simpl; [|split; [constructor | left; reflexivity]].
    destruct (negb _); simpl; split;
      [repeat constructor | right; reflexivity
      |repeat constructor | left; reflexivity].
  - unfold MissionServer.SaveHeatmapData.
    destruct (negb _); simpl; split;
      [repeat constructor | right; reflexivity
      |repeat constructor | left; reflexivity].
Qed.

(** X12: every file write of a mission goes to the one path its
    [m_SessionFileName] holds, so every save overwrites the same file; each
    call writes at most once, and what it writes is the world it was called
    with: the worlds written are a subsequence of the worlds of the calls. *)
Theorem mission_writes_one_file (self : MissionServer.t)
    (evs : list mission_event) :
  Forall (writes_to (MissionServer.m_SessionFileName self))
    (snd (mission_run self evs))
  /\ saved (snd (mission_run self evs)) `sublist_of` map event_world evs.
Proof.
  revert self. induction evs as [|ev evs IH]; intros self.
  - split; constructor.
  - rewrite mission_run_cons. cbn [snd map].
    destruct (mission_step_out self ev) as [Hpath Hsaved].
    destruct (IH (fst (mission_step self ev))) as [Hpath' Hsaved'].
    rewrite mission_step_name in Hpath'. split.
    + apply Forall_app. split; assumption.
    + rewrite saved_app. destruct Hsaved as [-> | ->]; simpl.
      * apply sublist_cons, Hsaved'.
      * apply sublist_skip, Hsaved'.
Qed.

Lemma OnUpdate_timer (timeslice : float) (self : MissionServer.t)
    (w : World) :
  float_lt
    (MissionServer.m_AutosaveTimer
       (fst (MissionServer.OnUpdate timeslice self w)))
    MissionServer.AUTOSAVE_INTERVAL
  = negb (float_is_nan
            (Float.add (MissionServer.m_AutosaveTimer self) timeslice))
  /\ float_is_nan
       (MissionServer.m_AutosaveTimer
          (fst (MissionServer.OnUpdate timeslice self w)))
     = float_is_nan
         (Float.add (MissionServer.m_AutosaveTimer self) timeslice).
Proof.
  unfold MissionServer.OnUpdate.
  set (t := Float.add (MissionServer.m_AutosaveTimer self) timeslice).
  destruct (Float.ge t MissionServer.AUTOSAVE_INTERVAL) eqn:Hdue; simpl.
  - rewrite (float_ge_not_nan _ _ Hdue). split; reflexivity.
  - split; [|reflexivity].
    destruct (float_is_nan t) eqn:Hnan; simpl.
    + apply float_lt_nan_l, Hnan.
    + apply float_ge_false_lt; [exact Hnan | reflexivity | exact Hdue].
Qed.

Lemma OnUpdate_timer_low (timeslice : float) (self : MissionServer.t)
    (w : World) :
  timer_low (fst (MissionServer.OnUpdate timeslice self w)).
Proof.
  destruct (OnUpdate_timer timeslice self w) as [Hlt Hnan].
  unfold timer_low. rewrite Hlt, Hnan.
  destruct (float_is_nan _); [right | left]; reflexivity.
Qed.

(** X13: the autosave timer never rests at or above the interval.  In a new
    mission it is strictly below 120 seconds.  After every call of
    [OnUpdate] the comparison the code makes is false again, and the timer
    is strictly below 120 seconds unless the previous timer plus the
    timeslice is not a number: then, and only then, the timer is not a
    number itself.  Any run of ticks and finalizations keeps the timer
    strictly below 120 seconds or not a number. *)
Theorem autosave_timer_stays_below (self : MissionServer.t)
    (evs : list mission_event) :
  float_lt (MissionServer.m_AutosaveTimer MissionServer.new)
    MissionServer.AUTOSAVE_INTERVAL = true
  /\ (forall timeslice w,
        below_interval (fst (MissionServer.OnUpdate timeslice self w))
        /\ float_lt
             (MissionServer.m_AutosaveTimer
                (fst (MissionServer.OnUpdate timeslice self w)))
             MissionServer.AUTOSAVE_INTERVAL
           = negb (float_is_nan
                     (Float.add (MissionServer.m_AutosaveTimer self)
                        timeslice))
        /\ float_is_nan
             (MissionServer.m_AutosaveTimer
                (fst (MissionServer.OnUpdate timeslice self w)))
           = float_is_nan
               (Float.add (MissionServer.m_AutosaveTimer self) timeslice))
  /\ (timer_low self -> timer_low (fst (mission_run self evs))).
Proof.
  split; [reflexivity|]. split.
  - intros ts w. split; [|apply OnUpdate_timer].
    unfold below_interval, MissionServer.OnUpdate.
    destruct (Float.ge (Float.add _ _) _) eqn:Hdue; simpl;
      [reflexivity | exact Hdue].
  - revert self. induction evs as [|ev evs IH]; intros self Hself.
    + exact Hself.
    + rewrite mission_run_cons. cbn [fst]. apply IH.
      destruct ev as [ts w | w]; simpl.
      * apply OnUpdate_timer_low.
      * exact Hself.
Qed.

Lemma autosave_timer_stays_below_witness :
  timer_low
    (fst (mission_run Sample.mission0
            [EvUpdate (Float.of_int 500) empty_world;
             EvMissionFinish empty_world;
             EvUpdate (Float.of_int 119) empty_world])).
Proof.
  destruct (autosave_timer_stays_below Sample.mission0
              [EvUpdate (Float.of_int 500) empty_world;
               EvMissionFinish empty_world;
               EvUpdate (Float.of_int 119) empty_world]) as (_ & _ & H).
  apply H. left. reflexivity.
Defined.

Lemma updates_nan (l : list (float * World)) (self : MissionServer.t) :
  MissionServer.m_AutosaveTimer self = S754_nan ->
  mission_run self (updates l) = (self, []).
Proof.
  intros Hnan. rewrite (updates_below l self).
  - destruct self as [timer name]. simpl in Hnan. subst timer. simpl.
    f_equal. f_equal. unfold autosave_sum.
    induction l as [|x l IH]; [reflexivity | exact IH].
  - intros p u q _. rewrite Hnan. unfold autosave_sum.
    assert (Hfold : forall k : list (float * World),
               fold_left (fun acc x => Float.add acc (fst x)) k S754_nan
               = S754_nan).
    { induction k as [|x k IH]; [reflexivity | exact IH]. }
    rewrite Hfold. apply Float_ge_nan.
Qed.

(** X14: one call of [OnUpdate] with a timeslice that is not a number turns
    the autosave off: no later tick writes, whatever its timeslice; the
    finalization still writes the aggregate once when the session file name
    is set. *)
Theorem NaN_timeslice_disables_autosave (self : MissionServer.t) (w0 w : World)
    (l : list (float * World)) :
  writes (snd (mission_run self (EvUpdate S754_nan w0 :: updates l))) = []
  /\ (MissionServer.m_SessionFileName self <> "" ->
      writes (snd (mission_run self
                     ((EvUpdate S754_nan w0 :: updates l)
                      ++ [EvMissionFinish w])))
      = [EffJsonSaveFile (MissionServer.m_SessionFileName self) w]).
Proof.
  assert (Hfirst : MissionServer.OnUpdate S754_nan self w0
                   = ({| MissionServer.m_AutosaveTimer := S754_nan;
                         MissionServer.m_SessionFileName :=
                           MissionServer.m_SessionFileName self |}, [])).
  { rewrite OnUpdate_below; rewrite Float_add_nan_r;
      [reflexivity | apply Float_ge_nan]. }
  assert (Hrun : mission_run self (EvUpdate S754_nan w0 :: updates l)
                 = ({| MissionServer.m_AutosaveTimer := S754_nan;
                       MissionServer.m_SessionFileName :=
                         MissionServer.m_SessionFileName self |}, [])).
  { rewrite mission_run_cons. simpl mission_step. rewrite Hfirst.
    cbn [fst snd]. rewrite updates_nan by reflexivity. reflexivity. }
  split; [rewrite Hrun; reflexivity|].
  intros Hname. rewrite mission_run_app, Hrun. cbn [fst snd app].
  rewrite mission_run_cons. simpl.
  rewrite SaveHeatmapData_named by exact Hname. reflexivity.
Qed.

Lemma NaN_timeslice_disables_autosave_witness :
  writes (snd (mission_run Sample.mission0
                 ((EvUpdate S754_nan empty_world
                   :: updates [Sample.slice 500; Sample.slice 500])
                  ++ [EvMissionFinish empty_world])))
  = [EffJsonSaveFile (MissionServer.m_SessionFileName Sample.mission0)
       empty_world].
Proof.
  destruct (NaN_timeslice_disables_autosave Sample.mission0 empty_world
              empty_world [Sample.slice 500; Sample.slice 500]) as [_ H].
  apply H. vm_compute. discriminate.
Defined.

(** ** When two sessions share a file *)

Lemma append_inj_l (s a b : string) : s +:+ a = s +:+ b -> a = b.
Proof.
  induction s as [|c s IH]; simpl; intros H; [exact H|].
  injection H as H. exact (IH H).
Qed.

Lemma second_values_spec (ms : Z) : In (Z.rem ms 60) second_values.
Proof.
  unfold second_values. apply in_map_iff.
  pose proof (Z.rem_bound_abs ms 60 ltac:(lia)) as Hb.
  exists (Z.to_nat (Z.rem ms 60 + 59)). split; [lia|].
  apply in_seq. lia.
Qed.

Lemma second_suffix_inj (r r' : Z) :
  In r second_values -> In r' second_values ->
  second_suffix r = second_suffix r' -> r = r'.
Proof.
  intros Hr Hr' Heq.
  assert (Hall : forallb (fun i =>
                   forallb (fun j =>
                     Z.eqb i j
                     || negb (String.eqb (second_suffix i) (second_suffix j)))
                     second_values) second_values = true)
    by (vm_compute; reflexivity).
  rewrite forallb_forall in Hall. specialize (Hall r Hr).
  rewrite forallb_forall in Hall. specialize (Hall r' Hr').
  apply String.eqb_eq in Heq. rewrite Heq in Hall. simpl in Hall.
  rewrite orb_false_r in Hall. apply Z.eqb_eq, Hall.
Qed.

(** X15: two session starts on the same date, hour and minute get the same
    file name exactly when their clock readings agree modulo 60 (as the
    script's [%] computes it): then the later session overwrites the file of
    the earlier one; otherwise the names differ. The calendar second plays
    no part. *)
Theorem session_path_collision (float_to_string : float -> string)
    (fs fs' : FileSystem) (year month day hour minute sec sec' ms ms' : Z) :
  session_path float_to_string fs
    (game_at (year, month, day, hour, minute, sec) ms)
  = session_path float_to_string fs'
      (game_at (year, month, day, hour, minute, sec') ms')
  <-> Z.rem ms 60 = Z.rem ms' 60.
Proof.
  unfold session_path. rewrite !OnInit_name. split.
  - intros H.
    apply (append_inj_l MissionServer.HEATMAP_PROFILE_FOLDER) in H.
    apply (append_inj_l "/session_") in H.
    apply (append_inj_l (Int.to_string year)) in H.
    apply (append_inj_l "-") in H.
    apply (append_inj_l (Int.to_string month)) in H.
    apply (append_inj_l "-") in H.
    apply (append_inj_l (Int.to_string day)) in H.
    apply (append_inj_l "_") in H.
    apply (append_inj_l (Int.to_string hour)) in H.
    apply (append_inj_l "-") in H.
    apply (append_inj_l (Int.to_string minute)) in H.
    apply (append_inj_l "-") in H.
    apply second_suffix_inj; [apply second_values_spec.. | exact H].
  - intros ->. reflexivity.
Qed.

(** ** Successive saves *)

Lemma session_step_saved (g_Game : DayZGame) (mission : MissionServer.t)
    (st : agent_state) (ev : session_event) :
  let r := session_step g_Game (mission, st) ev in
  world_le (snd st) (snd (snd (fst r)))
  /\ (saved (snd r) = [] \/ saved (snd r) = [snd st]).
Proof.
  destruct ev as [ev' | ts | ]; cbn zeta; simpl session_step.
  - split; [apply agent_step_le | left; reflexivity].
  - pose proof (mission_step_out mission (EvUpdate ts (snd st))) as [_ Hs].
    simpl in Hs.
    destruct (MissionServer.OnUpdate ts mission (snd st)) as [m' out].
    split; [apply world_le_refl | exact Hs].
  - split; [apply world_le_refl|].
    pose proof (mission_step_out mission (EvMissionFinish (snd st))) as [_ Hs].
    exact Hs.
Qed.

Lemma session_run_cons (g_Game : DayZGame) (s : session_state)
    (ev : session_event) (evs : list session_event) :
  session_run g_Game s (ev :: evs)
  = (fst (session_run g_Game (fst (session_step g_Game s ev)) evs),
     snd (session_step g_Game s ev)
     ++ snd (session_run g_Game (fst (session_step g_Game s ev)) evs)).
Proof.
  simpl. destruct (session_step g_Game s ev) as [s1 out1]. simpl.
  destruct (session_run g_Game s1 evs) as [s2 out2]. reflexivity.
Qed.

(** X16: in a session where the agent's hooks and the mission's calls
    interleave in any order, every save holds everything the world held when
    the run began, and every later save holds everything an earlier save
    held, in the same places: rewriting the whole file never loses a
    recorded waypoint. *)
Theorem saves_only_grow (g_Game : DayZGame) (evs : list session_event)
    (mission : MissionServer.t) (st : agent_state) :
  Forall (world_le (snd st))
    (saved (snd (session_run g_Game (mission, st) evs)))
  /\ StronglySorted world_le
       (saved (snd (session_run g_Game (mission, st) evs))).
Proof.
  revert mission st. induction evs as [|ev evs IH]; intros mission st.
  - split; constructor.
  - rewrite session_run_cons. cbn [snd]. rewrite saved_app.
    destruct (session_step_saved g_Game mission st ev) as [Hle Hs].
    cbn zeta in Hle, Hs.
    destruct (session_step g_Game (mission, st) ev) as [[m1 st1] out1].
    cbn [fst snd] in *.
    destruct (IH m1 st1) as [Hall Hsorted].
    assert (Hall' : Forall (world_le (snd st))
                      (saved (snd (session_run g_Game (m1, st1) evs)))).
    { eapply Forall_impl; [exact Hall|].
      intros d Hd. exact (world_le_trans _ _ _ Hle Hd). }
    destruct Hs as [-> | ->]; simpl.
    + split; assumption.
    + split.
      * constructor; [apply world_le_refl | exact Hall'].
      * constructor; assumption.
Qed.

(** ** The autosave cycle *)

Lemma updates_app (l1 l2 : list (float * World)) :
  updates (l1 ++ l2) = updates l1 ++ updates l2.
Proof. unfold updates. apply map_app. Qed.

(** From a timer at zero to the first due tick: one call of
    [SaveHeatmapData], at the due tick. *)
Lemma cycle_from_zero (s : MissionServer.t) (pre : list (float * World))
    (y : float * World) :
  MissionServer.m_AutosaveTimer s = Float.of_int 0 ->
  (forall p u q, pre = p ++ u :: q ->
     Float.ge (autosave_sum (Float.of_int 0) (p ++ [u]))
       MissionServer.AUTOSAVE_INTERVAL = false) ->
  Float.ge (autosave_sum (Float.of_int 0) (pre ++ [y]))
    MissionServer.AUTOSAVE_INTERVAL = true ->
  writes (snd (mission_run s (updates (pre ++ [y]))))
  = writes (MissionServer.SaveHeatmapData s (snd y)).
Proof.
  intros Hzero Hlow Hdue. rewrite <- Hzero in Hlow, Hdue.
  rewrite updates_app, mission_run_app, (updates_below pre s Hlow).
  cbn [fst snd app]. change (updates [y]) with [EvUpdate (fst y) (snd y)].
  rewrite mission_run_cons. cbn [mission_step mission_run snd].
  rewrite app_nil_r, autosave_sum_snoc in *.
  set (s1 := {| MissionServer.m_AutosaveTimer :=
                  autosave_sum (MissionServer.m_AutosaveTimer s) pre;
                MissionServer.m_SessionFileName :=
                  MissionServer.m_SessionFileName s |}).
  destruct (OnUpdate_due (fst y) s1 (snd y) Hdue) as [_ Hw].
  rewrite Hw. reflexivity.
Qed.

(** X17: the autosave cycle repeats: once a tick was due, the timer restarts
    from zero, the ticks whose timeslices then stay below 120 seconds write
    nothing, and the next write happens at the tick where the timeslices
    since the previous write first add up to the interval. *)
Theorem autosave_repeats (self : MissionServer.t)
    (l1 pre : list (float * World)) (x y : float * World) :
  MissionServer.m_SessionFileName self <> "" ->
  Float.ge
    (Float.add
       (MissionServer.m_AutosaveTimer (fst (mission_run self (updates l1))))
       (fst x))
    MissionServer.AUTOSAVE_INTERVAL = true ->
  (forall p u q, pre = p ++ u :: q ->
     Float.ge (autosave_sum (Float.of_int 0) (p ++ [u]))
       MissionServer.AUTOSAVE_INTERVAL = false) ->
  Float.ge (autosave_sum (Float.of_int 0) (pre ++ [y]))
    MissionServer.AUTOSAVE_INTERVAL = true ->
  writes (snd (mission_run self (updates (l1 ++ [x] ++ pre ++ [y]))))
  = writes (snd (mission_run self (updates l1)))
    ++ [EffJsonSaveFile (MissionServer.m_SessionFileName self) (snd x);
        EffJsonSaveFile (MissionServer.m_SessionFileName self) (snd y)].
Proof.
  intros Hname Hx Hlow Hy.
  set (s1 := fst (mission_run self (updates l1))) in *.
  assert (Hn1 : MissionServer.m_SessionFileName s1
                = MissionServer.m_SessionFileName self)
    by apply mission_run_name.
  destruct (OnUpdate_due (fst x) s1 (snd x) Hx) as [Hzero Hwx].
  set (s2 := fst (MissionServer.OnUpdate (fst x) s1 (snd x))) in *.
  assert (Hn2 : MissionServer.m_SessionFileName s2
                = MissionServer.m_SessionFileName self).
  { unfold s2. rewrite <- Hn1.
    exact (mission_step_name s1 (EvUpdate (fst x) (snd x))). }
  rewrite updates_app, mission_run_app. cbn [snd]. fold s1.
  rewrite writes_app. f_equal.
  change (updates ([x] ++ pre ++ [y]))
    with (EvUpdate (fst x) (snd x) :: updates (pre ++ [y])).
  rewrite mission_run_cons. cbn [snd mission_step]. fold s2.
  rewrite writes_app, Hwx, (cycle_from_zero s2 pre y Hzero Hlow Hy).
  rewrite !SaveHeatmapData_named by congruence.
  rewrite Hn1, Hn2. reflexivity.
Qed.

Lemma autosave_repeats_witness :
  writes (snd (mission_run Sample.mission0
                 (updates ([Sample.slice 50; Sample.slice 50]
                           ++ [Sample.slice 50]
                           ++ [Sample.slice 100] ++ [Sample.slice 20]))))
  = [EffJsonSaveFile (MissionServer.m_SessionFileName Sample.mission0)
       empty_world;
     EffJsonSaveFile (MissionServer.m_SessionFileName Sample.mission0)
       empty_world].
Proof.
  apply (autosave_repeats Sample.mission0 [Sample.slice 50; Sample.slice 50]
           [Sample.slice 100] (Sample.slice 50) (Sample.slice 20)).
  - vm_compute. discriminate.
  - vm_compute. reflexivity.
  - apply never_due_sound. vm_compute. reflexivity.
  - vm_compute. reflexivity.
Defined.

(** ** The zombie's own array *)

(** X18: the array a new zombie allocates is fresh and empty and is not
    among the registered trajectories, and the zombie's death does not
    register it either: in a well-formed world the waypoint a zombie writes
    to its own array is never part of what the aggregate refers to; only the
    copy in the zombie points is. *)
Theorem zombie_array_is_private (vector_to_string : vector -> string)
    (w : World) (g : Game) (e : Entity) :
  world_wf w ->
  let z := fst (ZombieBase.new w) in
  let w1 := snd (ZombieBase.new w) in
  let w2 := snd (fst (ZombieBase.EEKilled vector_to_string g e (z, w1))) in
  heap w !! ZombieBase.m_WayPoints z = None
  /\ heap w1 !! ZombieBase.m_WayPoints z = Some []
  /\ (forall b tr, heap w !! b = Some tr -> heap w1 !! b = Some tr)
  /\ CURRENT_HEATMAP w1 = CURRENT_HEATMAP w
  /\ world_wf w1
  /\ (ZombieBase.m_WayPoints z ∉ registered w1)
  /\ heap w2 !! ZombieBase.m_WayPoints z = Some [ZombieBase.GetWaypoint g e]
  /\ world_wf w2
  /\ (ZombieBase.m_WayPoints z ∉ registered w2).
Proof.
  intros [Hval Hnd]. cbn zeta.
  unfold ZombieBase.new, ZombieBase.EEKilled, world_wf, registered in *.
  cbn [fst snd heap heap_new CURRENT_HEATMAP ZombieBase.m_WayPoints
       HeatmapData.m_AIWayPoints].
  assert (Hfresh : (length (heap w))
                   ∉ (HeatmapData.m_AIWayPoints (CURRENT_HEATMAP w))).
  { intros Hin. rewrite Forall_forall in Hval. specialize (Hval _ Hin).
    simpl in Hval. lia. }
  assert (Hval' : Forall (fun a => a < length (heap w ++ [[]]))
                    (HeatmapData.m_AIWayPoints (CURRENT_HEATMAP w))).
  { eapply Forall_impl; [exact Hval|]. intros a Ha. simpl in Ha.
    rewrite length_app. simpl. lia. }
  split; [apply lookup_ge_None_2; lia|].
  split; [rewrite lookup_app_r by lia; rewrite Nat.sub_diag; reflexivity|].
  split; [intros b tr Hb; apply lookup_app_l_Some, Hb|].
  split; [reflexivity|].
  split; [split; assumption|].
  split; [exact Hfresh|].
  split.
  - unfold heap_Insert. rewrite list_lookup_alter_eq.
    rewrite lookup_app_r by lia. rewrite Nat.sub_diag. reflexivity.
  - rewrite length_heap_Insert. split; [split; assumption | exact Hfresh].
Qed.

Lemma zombie_array_is_private_witness :
  1 ∉ registered
        (snd (fst (ZombieBase.EEKilled Sample.vector_to_string
                     (Sample.server 7500) Sample.dead
                     (fst (ZombieBase.new (snd Sample.agent0)),
                      snd (ZombieBase.new (snd Sample.agent0)))))).
Proof.
  destruct (zombie_array_is_private Sample.vector_to_string
              (snd Sample.agent0) (Sample.server 7500) Sample.dead)
    as (_ & _ & _ & _ & _ & _ & _ & _ & H).
  - split.
    + repeat constructor.
    + apply NoDup_singleton.
  - exact H.
Defined.

(** ** Periods the wrong way round *)

(** X19: when the vehicle period is not shorter than the normal period,
    being in a vehicle changes nothing: an eligible tick of a tracked agent
    fires exactly when the incremented accumulator has reached the normal
    period. *)
Theorem vehicle_period_ignored_when_longer (g_Game : DayZGame)
    (st : agent_state) (a : ref) (tk : Tick) :
  Float.ge (HEATMAP_TICK_TIME_VEHICLE g_Game) (HEATMAP_TICK_TIME g_Game) = true ->
  tracked st a -> eligible tk = true ->
  fired st (tick g_Game st tk)
  = Float.ge (Float.add (eAIBase.m_HeatmapTime (fst st)) (deltaTime tk))
      (HEATMAP_TICK_TIME g_Game).
Proof.
  intros Hlong Hst He. rewrite (fired_tick g_Game st a tk Hst He).
  unfold reached.
  destruct (Float.ge (Float.add _ _) (HEATMAP_TICK_TIME g_Game)) eqn:Hn;
    [apply orb_true_r|].
  rewrite orb_false_r.
  destruct (Float.ge (Float.add _ _) (HEATMAP_TICK_TIME_VEHICLE g_Game))
    eqn:Hv; [|reflexivity].
  rewrite (Float_ge_trans _ _ _ Hv Hlong) in Hn. discriminate.
Qed.

Lemma vehicle_period_ignored_when_longer_witness :
  fired
    (tick {| HEATMAP_TICK_TIME := Float.of_int 5;
             HEATMAP_TICK_TIME_VEHICLE := Float.of_int 30 |} Sample.agent0
       (Sample.tick_of 1 1000 Sample.on_foot))
    (tick {| HEATMAP_TICK_TIME := Float.of_int 5;
             HEATMAP_TICK_TIME_VEHICLE := Float.of_int 30 |}
       (tick {| HEATMAP_TICK_TIME := Float.of_int 5;
                HEATMAP_TICK_TIME_VEHICLE := Float.of_int 30 |} Sample.agent0
          (Sample.tick_of 1 1000 Sample.on_foot))
       (Sample.tick_of 3 4000 Sample.driving))
  = Float.ge (Float.add Float.zero (Float.of_int 3)) (Float.of_int 5).
Proof.
  apply (vehicle_period_ignored_when_longer
           {| HEATMAP_TICK_TIME := Float.of_int 5;
              HEATMAP_TICK_TIME_VEHICLE := Float.of_int 30 |}
           (tick {| HEATMAP_TICK_TIME := Float.of_int 5;
                    HEATMAP_TICK_TIME_VEHICLE := Float.of_int 30 |}
              Sample.agent0 (Sample.tick_of 1 1000 Sample.on_foot)) 0).
  - vm_compute. reflexivity.
  - split; [reflexivity | vm_compute; lia].
  - reflexivity.
Defined.

Lemma session_path_collision_witness :
  session_path Sample.float_to_string Sample.good_fs
    (game_at (2024, 3, 5, 14, 7, 2)%Z 33)
  = session_path Sample.float_to_string Sample.broken_fs
      (game_at (2024, 3, 5, 14, 7, 58)%Z 56793).
Proof.
  apply (session_path_collision Sample.float_to_string Sample.good_fs
           Sample.broken_fs 2024 3 5 14 7 2 58 33 56793).
  reflexivity.
Defined.
